(** * A content bot: conversational state machine and JSON content store

    A shallow embedding of [bot.py]: the content store ([load_data],
    [save_data], [create_backup]) over a file system, and the three message
    handlers ([handle_menu], [handle_admin_panel], [handle_admin_input])
    over the per-user session dictionary, followed by the properties of the
    program that the specification states. *)

From Stdlib Require Import Ascii.
From stdpp Require Import gmap strings list sorting pretty fin_maps.

Local Open Scope nat_scope.

(** ** Python strings

    A Python [str] is modelled by its UTF-8 encoding, a [string] of bytes.
    Equality, prefix tests, splitting on an ASCII separator and the
    lexicographic order all agree between a sequence of code points and its
    UTF-8 encoding. *)

Module Py.

(** [s.startswith(p)], returning what follows the prefix. *)
Fixpoint strip_prefix (p s : string) : option string :=
  match p, s with
  | EmptyString, _ => Some s
  | String a p', String b s' =>
      if Ascii.eqb a b then strip_prefix p' s' else None
  | String _ _, EmptyString => None
  end.

Definition startswith (s p : string) : bool :=
  match strip_prefix p s with Some _ => true | None => false end.

(** [s.split(sep)] for a one-character separator: always [count + 1] parts. *)
Fixpoint split (sep : ascii) (s : string) : list string :=
  match s with
  | EmptyString => [EmptyString]
  | String a s' =>
      if Ascii.eqb a sep then EmptyString :: split sep s'
      else match split sep s' with
           | p :: ps => String a p :: ps
           | [] => [String a EmptyString]
           end
  end.

(** Number of occurrences of a character. *)
Fixpoint count (c : ascii) (s : string) : nat :=
  match s with
  | EmptyString => 0
  | String a s' => (if Ascii.eqb a c then 1 else 0) + count c s'
  end.

(** [sep.join(parts)]. *)
Fixpoint join (sep : string) (parts : list string) : string :=
  match parts with
  | [] => EmptyString
  | [p] => p
  | p :: ps => p +:+ sep +:+ join sep ps
  end.

(** White space as [str.isspace] sees it, read on the UTF-8 bytes: the
    code points U+0009..U+000D, U+001C..U+0020 (one byte), U+0085 and U+00A0
    (two bytes), U+1680, U+2000..U+200A, U+2028, U+2029, U+202F, U+205F and
    U+3000 (three bytes). *)
Definition is_space1 (a : ascii) : bool :=
  let n := nat_of_ascii a in
  ((9 <=? n) && (n <=? 13)) || ((28 <=? n) && (n <=? 32)).

Definition is_space2 (a b : ascii) : bool :=
  (nat_of_ascii a =? 194) &&
  ((nat_of_ascii b =? 133) || (nat_of_ascii b =? 160)).

Definition is_space3 (a b c : ascii) : bool :=
  let x := nat_of_ascii a in
  let y := nat_of_ascii b in
  let z := nat_of_ascii c in
  ((x =? 225) && (y =? 154) && (z =? 128))
  || ((x =? 226) && (y =? 128)
      && (((128 <=? z) && (z <=? 138)) || (z =? 168) || (z =? 169) || (z =? 175)))
  || ((x =? 226) && (y =? 129) && (z =? 159))
  || ((x =? 227) && (y =? 128) && (z =? 128)).

(** [s.lstrip()]. *)
Fixpoint lstrip (s : string) : string :=
  match s with
  | EmptyString => EmptyString
  | String a r1 =>
      if is_space1 a then lstrip r1
      else match r1 with
           | EmptyString => s
           | String b r2 =>
               if is_space2 a b then lstrip r2
               else match r2 with
                    | EmptyString => s
                    | String c r3 => if is_space3 a b c then lstrip r3 else s
                    end
           end
  end.

(** The same scan on the reversed bytes, where a code point shows its last
    byte first. *)
Fixpoint lstrip_rev (s : string) : string :=
  match s with
  | EmptyString => EmptyString
  | String a r1 =>
      if is_space1 a then lstrip_rev r1
      else match r1 with
           | EmptyString => s
           | String b r2 =>
               if is_space2 b a then lstrip_rev r2
               else match r2 with
                    | EmptyString => s
                    | String c r3 => if is_space3 c b a then lstrip_rev r3 else s
                    end
           end
  end.

Definition rstrip (s : string) : string :=
  String.rev (lstrip_rev (String.rev s)).

(** [s.strip()]. *)
Definition strip (s : string) : string := rstrip (lstrip s).

(** [os.path.basename(path)]: what follows the last slash. *)
Definition basename (path : string) : string :=
  List.last (split "/" path) EmptyString.

(** [str(n)] for a natural number. *)
Definition str_of_nat (n : nat) : string := pretty n.

(** [sorted(names)] on strings: the increasing arrangement for the
    code-point order.  Names are compared with [String.le]; the order is
    total and antisymmetric, so the sorted arrangement of a list is unique
    and does not depend on the sorting algorithm. *)
Definition sorted (names : list string) : list string :=
  merge_sort String.le names.

(** Two lower-case hexadecimal digits, as [%02x] prints a byte. *)
Definition hex_digit (n : nat) : ascii :=
  ascii_of_nat (if n <? 10 then 48 + n else 87 + n).

Definition hex2 (n : nat) : string :=
  String (hex_digit (n / 16)) (String (hex_digit (n mod 16)) EmptyString).

Definition squote : ascii := "039"%char.
Definition dquote : ascii := "034"%char.
Definition backslash : ascii := "092"%char.

(** [repr(s)]: the text between single quotes, or between double quotes
    when it holds a single quote and no double quote; the enclosing quote
    and the backslash are escaped, the control characters of ASCII are
    written [\t], [\n], [\r] or [\xNN].  The bytes above 127, which encode
    the other code points, are copied: code points beyond ASCII are taken
    to be printable, as letters are. *)
Definition repr_char (quote a : ascii) : string :=
  let n := nat_of_ascii a in
  if Ascii.eqb a quote || Ascii.eqb a backslash then
    String backslash (String a EmptyString)
  else if n =? 9 then String backslash "t"
  else if n =? 10 then String backslash "n"
  else if n =? 13 then String backslash "r"
  else if (n <? 32) || (n =? 127) then String backslash "x" +:+ hex2 n
  else String a EmptyString.

Fixpoint repr_body (quote : ascii) (s : string) : string :=
  match s with
  | EmptyString => EmptyString
  | String a s' => repr_char quote a +:+ repr_body quote s'
  end.

Definition repr (s : string) : string :=
  let quote :=
    if (0 <? count squote s) && (count dquote s =? 0) then dquote
    else squote in
  String quote (repr_body quote s) +:+ String quote EmptyString.

(** Decoding a file's bytes as UTF-8, with [errors="strict"].  A byte from
    128 to 191 continues a sequence. *)
Definition is_cont (a : ascii) : bool :=
  let n := nat_of_ascii a in (128 <=? n) && (n <? 192).

(** The first fault the decoder meets from the byte at position [pos] on:
    the first byte of the faulty sequence, the positions where the sequence
    starts and ends, and the reason.  A sequence opens with a byte from 194
    to 244 that announces one, two or three continuation bytes; the second
    byte of a sequence is further bounded after 224, 237, 240 and 244, which
    excludes overlong forms, surrogates and code points beyond U+10FFFF.  A
    sequence cut short by the end of the data ends there. *)
Fixpoint utf8_fault (pos : nat) (s : string)
  : option (nat * nat * nat * string) :=
  let start_byte := "invalid start byte" in
  let continuation := "invalid continuation byte" in
  let end_of_data := "unexpected end of data" in
  match s with
  | EmptyString => None
  | String a r1 =>
      let ch := nat_of_ascii a in
      if ch <? 128 then utf8_fault (pos + 1) r1
      else if ch <? 194 then Some (ch, pos, pos + 1, start_byte)
      else if ch <? 224 then
        match r1 with
        | EmptyString => Some (ch, pos, pos + 1, end_of_data)
        | String b r2 =>
            if is_cont b then utf8_fault (pos + 2) r2
            else Some (ch, pos, pos + 1, continuation)
        end
      else if ch <? 240 then
        match r1 with
        | EmptyString => Some (ch, pos, pos + 1, end_of_data)
        | String b r2 =>
            if negb (is_cont b)
               || (if nat_of_ascii b <? 160 then ch =? 224 else ch =? 237)
            then Some (ch, pos, pos + 1, continuation)
            else
              match r2 with
              | EmptyString => Some (ch, pos, pos + 2, end_of_data)
              | String c r3 =>
                  if is_cont c then utf8_fault (pos + 3) r3
                  else Some (ch, pos, pos + 2, continuation)
              end
        end
      else if ch <? 245 then
        match r1 with
        | EmptyString => Some (ch, pos, pos + 1, end_of_data)
        | String b r2 =>
            if negb (is_cont b)
               || (if nat_of_ascii b <? 144 then ch =? 240 else ch =? 244)
            then Some (ch, pos, pos + 1, continuation)
            else
              match r2 with
              | EmptyString => Some (ch, pos, pos + 2, end_of_data)
              | String c r3 =>
                  if negb (is_cont c)
                  then Some (ch, pos, pos + 2, continuation)
                  else
                    match r3 with
                    | EmptyString => Some (ch, pos, pos + 3, end_of_data)
                    | String d r4 =>
                        if is_cont d then utf8_fault (pos + 4) r4
                        else Some (ch, pos, pos + 3, continuation)
                    end
              end
        end
      else Some (ch, pos, pos + 1, start_byte)
  end.

(** [str(e)] for the [UnicodeDecodeError] that reading the bytes raises, or
    [None] when the bytes are UTF-8. *)
Definition utf8_error (s : string) : option string :=
  match utf8_fault 0 s with
  | None => None
  | Some (byte, start, stop, reason) =>
      Some ("'utf-8' codec can't decode "
            +:+ (if stop =? start + 1 then
                   "byte 0x" +:+ hex2 byte +:+ " in position "
                   +:+ str_of_nat start
                 else
                   "bytes in position " +:+ str_of_nat start +:+ "-"
                   +:+ str_of_nat (stop - 1))
            +:+ ": " +:+ reason)
  end.

End Py.

(** The newline character of the message texts. *)
Definition nl : string := String "010"%char EmptyString.

(** ** The clock

    [datetime.now()] is an input of the program: a year from 1 to 9999 and
    the five other fields of a date and a time.  [strftime] is the format
    [%Y%m%d_%H%M%S] of [create_backup]: the year in decimal as the C
    library prints it, without padding, and every other field zero-padded
    to two digits. *)

Record datetime := {
  year : nat; month : nat; day : nat;
  hour : nat; minute : nat; second : nat
}.

Definition digit (d : nat) : ascii := ascii_of_nat (48 + d mod 10).

(** [n] on [w] decimal digits, most significant first. *)
Fixpoint pad (w n : nat) : string :=
  match w with
  | 0 => EmptyString
  | S w' => String (digit (n / 10 ^ w')) (pad w' (n mod 10 ^ w'))
  end.

(** The number of decimal digits of a year. *)
Definition year_digits (y : nat) : nat :=
  if y <? 10 then 1 else if y <? 100 then 2 else if y <? 1000 then 3 else 4.

Definition strftime (t : datetime) : string :=
  pad (year_digits (year t)) (year t)
  +:+ pad 2 (month t) +:+ pad 2 (day t) +:+ "_"
  +:+ pad 2 (hour t) +:+ pad 2 (minute t) +:+ pad 2 (second t).

(** A reading of a wall clock, with a four-digit year. *)
Definition valid_datetime (t : datetime) : Prop :=
  10 ^ 3 <= year t < 10 ^ 4 /\ month t < 100 /\ day t < 100
  /\ hour t < 100 /\ minute t < 100 /\ second t < 100.

(** Chronological order: the fields compared from the year down. *)
Definition dt_key (t : datetime) : list nat :=
  [year t; month t; day t; hour t; minute t; second t].

Fixpoint lex_lt (k1 k2 : list nat) : Prop :=
  match k1, k2 with
  | a :: k1', b :: k2' => a < b \/ (a = b /\ lex_lt k1' k2')
  | _, _ => False
  end.

Definition earlier (t1 t2 : datetime) : Prop := lex_lt (dt_key t1) (dt_key t2).

Global Instance valid_datetime_dec t : Decision (valid_datetime t).
Proof. unfold valid_datetime. apply _. Defined.

Global Instance lex_lt_dec : RelDecision lex_lt.
Proof.
  intros k1. induction k1 as [|a k1 IH]; intros [|b k2]; cbn; apply _.
Defined.

Global Instance earlier_dec : RelDecision earlier.
Proof. intros t1 t2. unfold earlier. apply _. Defined.

(** ** Data model *)

(** An Item is the dictionary [{"id": ..., "name": ...}]. *)
Record Item := { item_id : string; item_name : string }.

Global Instance Item_eq_dec : EqDecision Item.
Proof. solve_decision. Defined.

(** A parsed collection file: a JSON object whose fields hold sequences of
    Items, in the order of the file. *)
Abbreviation jdoc := (list (string * list Item)).

(** The content of a file, as [json.load] finds it: a JSON document of the
    shape the program writes, kept as the value [json.load] gives for it, or
    bytes that are no JSON document, kept as they are.  On these
    [json.load] raises [UnicodeDecodeError] when they are not UTF-8, and
    [json.JSONDecodeError] when they are UTF-8 text with a syntax error. *)
Inductive file_text :=
| Json (d : jdoc)
| NotJson (raw : string).

Global Instance file_text_eq_dec : EqDecision file_text.
Proof. solve_decision. Defined.

(** The file system maps the path of every regular file to its content.
    Paths are relative to the working directory and normalised: their
    components, separated by single slashes, are names of entries, none of
    them empty, [.] or [..].  Directories have no entry of their own: a
    path is a directory when a file lies below it.  The program may read
    and write every file and directory. *)
Abbreviation fsys := (gmap string file_text).

(** Python objects.  Every Item dictionary built by [json.load] or by a
    dictionary display is an object of its own, denoted by its address in
    the heap; two addresses may hold equal dictionaries.  The dictionary and
    the lists of a loaded document live for one handler call only and are
    kept as values. *)
Abbreviation loc := nat.
Abbreviation pydict := (list (string * list loc)).

(** [d[key]] and [key in d] on a dictionary kept in insertion order. *)
Fixpoint dict_get {V} (d : list (string * V)) (key : string) : option V :=
  match d with
  | [] => None
  | (k, v) :: d' => if String.eqb k key then Some v else dict_get d' key
  end.

(** [d[key] = v]: in place when the key is there, at the end otherwise. *)
Fixpoint dict_set {V} (d : list (string * V)) (key : string) (v : V)
  : list (string * V) :=
  match d with
  | [] => [(key, v)]
  | (k, v0) :: d' =>
      if String.eqb k key then (k, v) :: d' else (k, v0) :: dict_set d' key v
  end.

(** [json.load]: fresh objects for the Items of a document. *)
Fixpoint alloc_doc (h : list Item) (d : jdoc) : list Item * pydict :=
  match d with
  | [] => (h, [])
  | (k, items) :: d' =>
      let '(h', pd) := alloc_doc (h ++ items) d' in
      (h', (k, seq (length h) (length items)) :: pd)
  end.

(** [json.dump]: the document a dictionary denotes in a heap. *)
Definition dump_items (h : list Item) (ls : list loc) : option (list Item) :=
  mapM (λ l, h !! l) ls.

Fixpoint dump (h : list Item) (pd : pydict) : option jdoc :=
  match pd with
  | [] => Some []
  | (k, ls) :: pd' =>
      match dump_items h ls, dump h pd' with
      | Some items, Some d' => Some ((k, items) :: d')
      | _, _ => None
      end
  end.

(** ** The content store on a file system *)

(** A path in normal form: names separated by single slashes, none of
    them empty, [.] or [..]. *)
Definition normalised (path : string) : Prop :=
  Forall (λ c : string, c ∉ [EmptyString; "."; ".."]) (Py.split "/" path).

Global Instance normalised_dec path : Decision (normalised path).
Proof. unfold normalised. apply _. Defined.

(** The directories a path goes through: what stands before each of its
    slashes. *)
Fixpoint ancestors (path : string) : list string :=
  match path with
  | EmptyString => []
  | String a rest =>
      (if Ascii.eqb a "/" then [EmptyString] else [])
      ++ (String a <$> ancestors rest)
  end.

(** A regular file stands where the path needs a directory. *)
Definition below_file (fs : fsys) (path : string) : bool :=
  bool_decide (Exists (λ a, is_Some (fs !! a)) (ancestors path)).

(** The path is a directory: some file lies below it. *)
Definition is_dir (fs : fsys) (path : string) : bool :=
  bool_decide
    (Exists (λ q : string, Is_true (Py.startswith q (path +:+ "/")))
       (map_to_list fs).*1).

(** [os.listdir(d)]: the names of the files right below [d].  The backup
    directory is listed on stores where it holds regular files only, which
    are the stores the program builds. *)
Definition entry_of (d path : string) : option string :=
  match Py.strip_prefix (d +:+ "/") path with
  | Some n => if Py.count "/" n =? 0 then Some n else None
  | None => None
  end.

Definition listdir (fs : fsys) (d : string) : list string :=
  omap (entry_of d) (map_to_list fs).*1.

(** The snapshots [create_backup] lists for a file: the entries of
    [backups] that start with the file's base name, sorted. *)
Definition backups_of (fs : fsys) (file_path : string) : list string :=
  Py.sorted
    (filter (λ f : string, Is_true (Py.startswith f (Py.basename file_path)))
       (listdir fs "backups")).

Definition backup_name (file_path : string) (now : datetime) : string :=
  Py.basename file_path +:+ "_" +:+ strftime now.

(** [create_backup(file_path)] at the clock reading [now].  A missing
    source makes [shutil.copy2] raise, which the function logs and
    swallows. *)
Definition create_backup (now : datetime) (file_path : string) (fs : fsys)
  : fsys :=
  match fs !! file_path with
  | None => fs
  | Some content =>
      let backup_path := "backups/" +:+ backup_name file_path now in
      let fs1 := <[backup_path := content]> fs in
      let backups := backups_of fs1 file_path in
      if 10 <? length backups then
        match backups with
        | b0 :: _ => delete ("backups/" +:+ b0) fs1
        | [] => fs1
        end
      else fs1
  end.

(** [save_data(file_path, data)] once [json.dump] has produced the text.
    The backup of an existing file comes first.  Then
    [os.makedirs(os.path.dirname(file_path), exist_ok=True)] raises when the
    directory part is empty, which is when the path has no slash:
    [save_data] logs the exception and returns, and the file is not
    written.  When the path has a directory part, the file is written: the
    directories of the path are there or are made, on a store where no
    regular file stands in their place (see [writable] below). *)
Definition write_file (now : datetime) (file_path : string)
    (content : file_text) (fs : fsys) : fsys :=
  let fs1 :=
    if decide (is_Some (fs !! file_path))
    then create_backup now file_path fs else fs in
  if Py.count "/" file_path =? 0 then fs1
  else <[file_path := content]> fs1.

(** ** Sessions, replies and the handler monad *)

(** A key of a Python dictionary read by subscript: absent, bound to
    [None], or bound to a value. *)
Inductive slot (A : Type) :=
| Absent
| PyNone
| Val (a : A).
Arguments Absent {A}.
Arguments PyNone {A}.
Arguments Val {A} a.

(** [context.user_data]: the dictionary of one user's conversation.
    [state] is read with [get("state", "main_menu")] and is never bound to
    [None]; [admin_state] is read with [get("admin_state")], for which an
    absent key and [None] are the same.  The two other keys are read by
    subscript. *)
Record session := {
  state : option string;
  admin_state : option string;
  admin_section : slot string;
  admin_selected_item : slot loc
}.

(** One [reply_text]: the text, the labels of the reply keyboard (one button
    a row, none when the reply carries no keyboard), and the session as it
    stands while the handler awaits the send. *)
Record reply := {
  text : string;
  keyboard : list string;
  on_send : session
}.

Record world := {
  clock : datetime;
  files : fsys;
  heap : list Item;
  user_data : session;
  outbox : list reply
}.

(** Writes to one component of the world. *)
Definition with_files (fs : fsys) (w : world) : world :=
  {| clock := clock w; files := fs; heap := heap w;
     user_data := user_data w; outbox := outbox w |}.

Definition with_heap (h : list Item) (w : world) : world :=
  {| clock := clock w; files := files w; heap := h;
     user_data := user_data w; outbox := outbox w |}.

Definition with_user_data (s : session) (w : world) : world :=
  {| clock := clock w; files := files w; heap := heap w;
     user_data := s; outbox := outbox w |}.

Definition with_outbox (o : list reply) (w : world) : world :=
  {| clock := clock w; files := files w; heap := heap w;
     user_data := user_data w; outbox := o |}.

(** The incoming message: [update.effective_user.id] and
    [update.message.text]. *)
Record update := { user_id : Z; message_text : string }.

(** The exceptions the handlers can meet, each with the text [str(e)].
    [UnicodeDecodeError] is a subclass of [ValueError]; the two others that
    reading a file can raise are subclasses of [OSError]. *)
Inductive exn :=
| ValueError (msg : string)
| UnicodeDecodeError (msg : string)
| KeyError (msg : string)
| TypeError (msg : string)
| IndexError (msg : string)
| NotADirectoryError (msg : string)
| IsADirectoryError (msg : string).

Definition exn_str (e : exn) : string :=
  match e with
  | ValueError m | UnicodeDecodeError m | KeyError m | TypeError m
  | IndexError m | NotADirectoryError m | IsADirectoryError m => m
  end.

(** [str(e)] for an [OSError] raised on a path. *)
Definition os_error (errno : nat) (strerror path : string) : string :=
  "[Errno " +:+ Py.str_of_nat errno +:+ "] " +:+ strerror +:+ ": "
  +:+ Py.repr path.

Inductive res (A : Type) :=
| Ok (a : A)
| Raise (e : exn).
Arguments Ok {A} a.
Arguments Raise {A} e.

(** A computation runs on the world; an exception leaves the writes made
    before it in place. *)
Definition M (A : Type) : Type := world → res A * world.

Global Instance M_ret : MRet M := λ A a w, (Ok a, w).
Global Instance M_bind : MBind M := λ A B f m w,
  match m w with
  | (Ok a, w') => f a w'
  | (Raise e, w') => (Raise e, w')
  end.

Definition raise {A} (e : exn) : M A := λ w, (Raise e, w).

(** [try: body  except ValueError as e: on_value(e)
    except Exception as e: on_other(e)]. *)
Definition try_except (body : M unit)
    (on_value : string → M unit) (on_other : exn → M unit) : M unit :=
  λ w,
    match body w with
    | (Ok tt, w') => (Ok tt, w')
    | (Raise (ValueError m), w') | (Raise (UnicodeDecodeError m), w') =>
        on_value m w'
    | (Raise e, w') => on_other e w'
    end.

Definition get_user_data : M session := λ w, (Ok (user_data w), w).

Definition put_user_data (s : session) : M unit := λ w,
  (Ok tt, with_user_data s w).

Definition set_state (v : option string) : M unit :=
  s ← get_user_data;
  put_user_data {| state := v; admin_state := admin_state s;
                   admin_section := admin_section s;
                   admin_selected_item := admin_selected_item s |}.

Definition set_admin_state (v : option string) : M unit :=
  s ← get_user_data;
  put_user_data {| state := state s; admin_state := v;
                   admin_section := admin_section s;
                   admin_selected_item := admin_selected_item s |}.

Definition set_admin_section (v : slot string) : M unit :=
  s ← get_user_data;
  put_user_data {| state := state s; admin_state := admin_state s;
                   admin_section := v;
                   admin_selected_item := admin_selected_item s |}.

Definition set_admin_selected_item (v : slot loc) : M unit :=
  s ← get_user_data;
  put_user_data {| state := state s; admin_state := admin_state s;
                   admin_section := admin_section s;
                   admin_selected_item := v |}.

(** [await update.message.reply_text(text, reply_markup=keyboard)]. *)
Definition reply_text (t : string) (kb : list string) : M unit := λ w,
  (Ok tt,
   with_outbox (outbox w ++ [{| text := t; keyboard := kb;
                                on_send := user_data w |}]) w).

(** [d[key]], raising [KeyError] with [repr(key)]. *)
Definition getitem {V} (d : list (string * V)) (key : string) : M V :=
  match dict_get d key with
  | Some v => mret v
  | None => raise (KeyError ("'" +:+ key +:+ "'"))
  end.

(** Reading a field of the dictionary at an address.  Addresses handed out
    by the allocator stay inside the heap; one outside stands for an object
    without the fields of an Item. *)
Definition item_at (l : loc) : M Item := λ w,
  match heap w !! l with
  | Some it => (Ok it, w)
  | None => (Raise (KeyError "'name'"), w)
  end.

(** A dictionary display [{"id": ..., "name": ...}]: a new object. *)
Definition new_item (it : Item) : M loc := λ w,
  (Ok (length (heap w)), with_heap (heap w ++ [it]) w).

(** [selected_item["name"] = new_name]: the object at the address changes,
    and with it what every reference to that address reads.  An address
    outside the heap stands for an object that takes no item assignment. *)
Definition set_item_name (l : loc) (new_name : string) : M unit := λ w,
  match heap w !! l with
  | Some it =>
      (Ok tt,
       with_heap
         (<[l := {| item_id := item_id it; item_name := new_name |}]> (heap w))
         w)
  | None => (Raise (TypeError "object does not support item assignment"), w)
  end.

(** How [open(file_path, "r", encoding="utf-8")] followed by [json.load]
    ends: with a document, with one of the two exceptions that [load_data]
    catches, or with another exception. *)
Inductive read_result :=
| Document (d : jdoc)
| FileNotFoundError
| JSONDecodeError
| OtherError (e : exn).

(** Opening a path that is no regular file fails: with [NotADirectoryError]
    when a regular file stands where the path needs a directory, with
    [IsADirectoryError] when the path is a directory, with
    [FileNotFoundError] when nothing is there.  Reading a file decodes its
    bytes, then parses the text. *)
Definition read_json (fs : fsys) (file_path : string) : read_result :=
  match fs !! file_path with
  | Some (Json d) => Document d
  | Some (NotJson raw) =>
      match Py.utf8_error raw with
      | Some msg => OtherError (UnicodeDecodeError msg)
      | None => JSONDecodeError
      end
  | None =>
      if below_file fs file_path then
        OtherError
          (NotADirectoryError (os_error 20 "Not a directory" file_path))
      else if is_dir fs file_path then
        OtherError
          (IsADirectoryError (os_error 21 "Is a directory" file_path))
      else FileNotFoundError
  end.

(** [load_data(file_path, default)].  [FileNotFoundError] and
    [json.JSONDecodeError] are caught and give [default], or [{}] when
    [default] is [None]; any other exception goes to the caller. *)
Definition load_data (file_path : string) (default : option pydict)
  : M pydict := λ w,
  match read_json (files w) file_path with
  | Document d =>
      let '(h', pd) := alloc_doc (heap w) d in
      (Ok pd, with_heap h' w)
  | FileNotFoundError | JSONDecodeError =>
      (Ok (match default with Some d => d | None => [] end), w)
  | OtherError e => (Raise e, w)
  end.

(** [save_data(file_path, data)].  [open(..., "w")] empties the file before
    [json.dump] writes; a failing dump is logged and swallowed, leaving the
    emptied file. *)
Definition save_data (file_path : string) (data : pydict) : M unit := λ w,
  let content :=
    match dump (heap w) data with
    | Some d => Json d
    | None => NotJson EmptyString
    end in
  (Ok tt, with_files (write_file (clock w) file_path content (files w)) w).

(** ** Menus and section tables *)

Definition main_menu_label : string := "🔙 Главное меню".
Definition admin_panel_label : string := "👑 Админ-панель".
Definition cancel_label : string := "Отмена".

(** The [sections] table of [handle_menu]: label, then directory, JSON key,
    display key and prompt. *)
Definition menu_sections : list (string * (string * string * string * string)) :=
  [ ("📚 Теория", ("theory", "topics", "topics", "Выберите тему"));
    ("❓ Теоретические вопросы",
       ("questions", "questions", "questions", "Выберите вопрос"));
    ("📝 Тесты", ("tests", "tests", "tests", "Выберите тест"));
    ("🖼️ Тесты по изображениям",
       ("image_tests", "image_tests", "image_tests",
        "Выберите тест по изображениям"));
    ("🧩 Ситуационные задачи", ("tasks", "tasks", "tasks", "Выберите задачу")) ].

(** The [sections] table of the two admin handlers: label, then directory
    and JSON key. *)
Definition admin_sections : list (string * (string * string)) :=
  [ ("Теория", ("theory", "topics"));
    ("Теоретические вопросы", ("questions", "questions"));
    ("Тесты", ("tests", "tests"));
    ("Тесты по изображениям", ("image_tests", "image_tests"));
    ("Ситуационные задачи", ("tasks", "tasks")) ].

Definition structure_path (section : string) : string :=
  "data/" +:+ section +:+ "/structure.json".

Definition get_admin_panel_menu : list string :=
  ["Добавить элемент"; "Редактировать элемент"; "Удалить элемент";
   main_menu_label].

(** Truth value of an optional string: [None] and the empty string are
    false. *)
Definition truthy (v : option string) : bool :=
  match v with
  | Some s => negb (String.eqb s EmptyString)
  | None => false
  end.

(** [v == s] for a session value [v]. *)
Definition is_str (v : option string) (s : string) : bool :=
  match v with
  | Some x => String.eqb x s
  | None => false
  end.

(** [a, b = parts], with the text of the [ValueError] for a sequence of
    [got] values that is not two long. *)
Definition unpack_error (got : nat) : string :=
  if got <? 2 then
    "not enough values to unpack (expected 2, got "
    +:+ Py.str_of_nat got +:+ ")"
  else "too many values to unpack (expected 2)".

Definition unpack2 (parts : list string) : M (string * string) :=
  match parts with
  | [a; b] => mret (a, b)
  | _ => raise (ValueError (unpack_error (length parts)))
  end.

(** [next((item for item in data if item["name"] == msg), None)]. *)
Fixpoint find_by_name (data : list loc) (msg : string) : M (option loc) :=
  match data with
  | [] => mret None
  | l :: data' =>
      it ← item_at l;
      if String.eqb (item_name it) msg then mret (Some l)
      else find_by_name data' msg
  end.

(** [[item for item in data if item != selected]]: dictionaries compare by
    their contents. *)
Fixpoint remove_equal (data : list loc) (selected : loc) : M (list loc) :=
  match data with
  | [] => mret []
  | l :: data' =>
      it ← item_at l;
      sel ← item_at selected;
      rest ← remove_equal data' selected;
      mret (if decide (it = sel) then rest else l :: rest)
  end.

(** The numbered listing ["\n".join(f"{item['id']}. {item['name']}" ...)]. *)
Definition listing (items : list Item) : string :=
  Py.join nl (List.map (λ it, item_id it +:+ ". " +:+ item_name it) items).

(** [context.user_data["admin_section"]] followed by
    [sections[section_name]]. *)
Definition current_section : M (string * (string * string)) :=
  s ← get_user_data;
  match admin_section s with
  | Absent => raise (KeyError "'admin_section'")
  | PyNone => raise (KeyError "None")
  | Val section_name =>
      sk ← getitem admin_sections section_name;
      mret (section_name, sk)
  end.

Section Handlers.

(** The allow-list read from the configuration at start-up. *)
Variable ADMINS : list Z.

Definition is_admin (uid : Z) : bool := bool_decide (uid ∈ ADMINS).

Definition get_main_menu (uid : Z) : list string :=
  ["📚 Теория"; "❓ Теоретические вопросы"; "📝 Тесты";
   "🖼️ Тесты по изображениям"; "🧩 Ситуационные задачи"]
  ++ (if is_admin uid then [admin_panel_label] else []).

(** [/start]. *)
Definition start (u : update) : M unit :=
  put_user_data {| state := None; admin_state := None;
                   admin_section := Absent; admin_selected_item := Absent |};;
  set_state (Some "main_menu");;
  reply_text ("Добро пожаловать в бот по дерматовенерологии!" +:+ nl
              +:+ "Выберите раздел:") (get_main_menu (user_id u)).

Definition handle_menu (u : update) : M unit :=
  let user_message := message_text u in
  s ← get_user_data;
  let current_state := default "main_menu" (state s) in
  if String.eqb current_state "admin_panel" then mret tt
  else
    let main_menu := get_main_menu (user_id u) in
    match dict_get menu_sections user_message with
    | Some (section, key, display_key, prompt) =>
        d ← load_data (structure_path section) (Some [(key, [])]);
        data ← getitem d key;
        match data with
        | [] =>
            match String.words prompt !! 1 with
            | Some word => reply_text (word +:+ " пока нет.") main_menu
            | None => raise (IndexError "list index out of range")
            end
        | _ :: _ =>
            set_state (Some section);;
            items ← mapM item_at data;
            reply_text (prompt +:+ ":" +:+ nl +:+ listing items)
              (List.map item_name items ++ [main_menu_label])
        end
    | None =>
        if String.eqb user_message admin_panel_label && is_admin (user_id u)
        then
          set_state (Some "admin_panel");;
          set_admin_state None;;
          reply_text "Вы в админ-панели. Выберите действие:"
            get_admin_panel_menu
        else if String.eqb user_message main_menu_label then
          set_state (Some "main_menu");;
          set_admin_state None;;
          reply_text "Выберите раздел:" main_menu
        else
          reply_text "Неизвестная команда. Выберите раздел:" main_menu
    end.

(** The keyboard of the five section labels and the cancel label. *)
Definition section_keyboard : list string :=
  List.map fst admin_sections ++ [cancel_label].

Definition handle_admin_panel (u : update) : M unit :=
  let user_message := message_text u in
  s ← get_user_data;
  let current_state := default "main_menu" (state s) in
  if negb (String.eqb current_state "admin_panel") || truthy (admin_state s)
  then mret tt
  else if negb (is_admin (user_id u)) then
    set_state (Some "main_menu");;
    set_admin_state None;;
    reply_text "Доступ запрещен." (get_main_menu (user_id u))
  else if String.eqb user_message "Добавить элемент" then
    set_admin_state (Some "waiting_add_section");;
    reply_text "Выберите раздел для добавления элемента:" section_keyboard
  else if String.eqb user_message "Редактировать элемент" then
    set_admin_state (Some "waiting_edit_section");;
    reply_text "Выберите раздел для редактирования элемента:" section_keyboard
  else if String.eqb user_message "Удалить элемент" then
    set_admin_state (Some "waiting_delete_section");;
    reply_text "Выберите раздел для удаления элемента:" section_keyboard
  else if String.eqb user_message main_menu_label then
    set_state (Some "main_menu");;
    set_admin_state None;;
    reply_text "Выберите раздел:" (get_main_menu (user_id u))
  else
    reply_text "Неизвестная команда. Выберите действие:" get_admin_panel_menu.

(** *** The branches of [handle_admin_input], one per admin state *)

Definition on_waiting_add_section (user_message : string) : M unit :=
  match dict_get admin_sections user_message with
  | Some _ =>
      set_admin_section (Val user_message);;
      set_admin_state (Some "waiting_add_item");;
      reply_text
        ("Введите данные для нового элемента в разделе '" +:+ user_message
         +:+ "'." +:+ nl
         +:+ "Для 'Теория' используйте формат: section|theme_name (например: theory|Инфекции кожи)."
         +:+ nl
         +:+ "Для других разделов просто название (например: Что такое экзема?).")
        [cancel_label]
  | None =>
      set_admin_state None;;
      reply_text "Неверный раздел. Выберите действие:" get_admin_panel_menu
  end.

Definition on_waiting_add_item (user_message : string) : M unit :=
  '(section_name, (section, key)) ← current_section;
  item_name ←
    (if String.eqb section_name "Теория" then
       '(section_part, item_name) ← unpack2 (Py.split "|" user_message);
       mret (Py.strip item_name)
     else mret (Py.strip user_message));
  let path := structure_path section in
  data ← load_data path (Some [(key, [])]);
  items ← getitem data key;
  let new_id := Py.str_of_nat (length items + 1) in
  l ← new_item {| item_id := new_id; item_name := item_name |};
  let data := dict_set data key (items ++ [l]) in
  save_data path data;;
  reply_text ("Элемент '" +:+ item_name +:+ "' добавлен в раздел '"
              +:+ section_name +:+ "'.") get_admin_panel_menu;;
  set_admin_state None;;
  set_admin_section PyNone.

(** The two section-choosing branches differ in the state they enter and in
    their texts only. *)
Definition choose_section (user_message next_state what_for : string)
  : M unit :=
  match dict_get admin_sections user_message with
  | Some (section, key) =>
      set_admin_section (Val user_message);;
      set_admin_state (Some next_state);;
      d ← load_data (structure_path section) (Some [(key, [])]);
      data ← getitem d key;
      match data with
      | [] =>
          set_admin_state None;;
          reply_text ("В разделе '" +:+ user_message
                      +:+ "' нет элементов для " +:+ what_for +:+ ".")
            get_admin_panel_menu
      | _ :: _ =>
          items ← mapM item_at data;
          reply_text ("Выберите элемент для " +:+ what_for +:+ " в разделе '"
                      +:+ user_message +:+ "':" +:+ nl +:+ listing items)
            (List.map item_name items ++ [cancel_label])
      end
  | None =>
      set_admin_state None;;
      reply_text "Неверный раздел. Выберите действие:" get_admin_panel_menu
  end.

Definition on_waiting_edit_section (user_message : string) : M unit :=
  choose_section user_message "waiting_edit_item_list" "редактирования".

Definition on_waiting_edit_item_list (user_message : string) : M unit :=
  '(section_name, (section, key)) ← current_section;
  d ← load_data (structure_path section) (Some [(key, [])]);
  data ← getitem d key;
  selected_item ← find_by_name data user_message;
  match selected_item with
  | Some l =>
      set_admin_selected_item (Val l);;
      set_admin_state (Some "waiting_edit_item");;
      it ← item_at l;
      reply_text ("Введите новое название для '" +:+ item_name it +:+ "':")
        [cancel_label]
  | None =>
      set_admin_state None;;
      reply_text "Элемент не найден. Выберите действие:" get_admin_panel_menu
  end.

Definition on_waiting_edit_item (user_message : string) : M unit :=
  let new_name := Py.strip user_message in
  '(section_name, (section, key)) ← current_section;
  data ← load_data (structure_path section) (Some [(key, [])]);
  s ← get_user_data;
  match admin_selected_item s with
  | Absent => raise (KeyError "'admin_selected_item'")
  | PyNone =>
      raise (TypeError "'NoneType' object does not support item assignment")
  | Val selected_item =>
      set_item_name selected_item new_name;;
      save_data (structure_path section) data;;
      reply_text ("Элемент переименован в '" +:+ new_name +:+ "'.")
        get_admin_panel_menu;;
      set_admin_state None;;
      set_admin_section PyNone;;
      set_admin_selected_item PyNone
  end.

Definition on_waiting_delete_section (user_message : string) : M unit :=
  choose_section user_message "waiting_delete_item_list" "удаления".

Definition on_waiting_delete_item_list (user_message : string) : M unit :=
  '(section_name, (section, key)) ← current_section;
  data ← load_data (structure_path section) (Some [(key, [])]);
  items ← getitem data key;
  selected_item ← find_by_name items user_message;
  match selected_item with
  | Some l =>
      items ← getitem data key;
      kept ← remove_equal items l;
      let data := dict_set data key kept in
      save_data (structure_path section) data;;
      it ← item_at l;
      reply_text ("Элемент '" +:+ item_name it +:+ "' удален.")
        get_admin_panel_menu
  | None =>
      set_admin_state None;;
      reply_text "Элемент не найден. Выберите действие:" get_admin_panel_menu
  end;;
  set_admin_state None;;
  set_admin_section PyNone.

(** The last branch of the chain: reached only when the admin state is none
    of the seven above. *)
Definition on_cancel : M unit :=
  set_admin_state None;;
  set_admin_section PyNone;;
  set_admin_selected_item PyNone;;
  reply_text "Действие отменено. Выберите действие:" get_admin_panel_menu.

(** The [if]/[elif] chain inside the [try]. *)
Definition admin_input_chain (st : option string) (user_message : string)
  : M unit :=
  if is_str st "waiting_add_section" then on_waiting_add_section user_message
  else if is_str st "waiting_add_item" then on_waiting_add_item user_message
  else if is_str st "waiting_edit_section" then
    on_waiting_edit_section user_message
  else if is_str st "waiting_edit_item_list" then
    on_waiting_edit_item_list user_message
  else if is_str st "waiting_edit_item" then on_waiting_edit_item user_message
  else if is_str st "waiting_delete_section" then
    on_waiting_delete_section user_message
  else if is_str st "waiting_delete_item_list" then
    on_waiting_delete_item_list user_message
  else if String.eqb user_message cancel_label then on_cancel
  else mret tt.

Definition on_value_error (e : string) : M unit :=
  reply_text ("Ошибка: " +:+ e +:+ ". Попробуйте снова или выберите 'Отмена'.")
    [cancel_label].

Definition on_exception (e : exn) : M unit :=
  reply_text ("Произошла ошибка: " +:+ exn_str e) get_admin_panel_menu;;
  set_admin_state None;;
  set_admin_section PyNone;;
  set_admin_selected_item PyNone.

Definition handle_admin_input (u : update) : M unit :=
  let user_message := message_text u in
  s ← get_user_data;
  let current_state := default "main_menu" (state s) in
  if negb (String.eqb current_state "admin_panel")
     || negb (truthy (admin_state s))
  then mret tt
  else if negb (is_admin (user_id u)) then
    set_state (Some "main_menu");;
    set_admin_state None;;
    reply_text "Доступ запрещен." (get_main_menu (user_id u))
  else
    try_except (admin_input_chain (admin_state s) user_message)
      on_value_error on_exception.

End Handlers.

(** ** Running the program *)

(** The world a computation leaves, result or exception alike. *)
Definition run {A} (m : M A) (w : world) : world := snd (m w).

(** The environment moves the clock between two messages. *)
Definition at_time (t : datetime) (w : world) : world :=
  {| clock := t; files := files w; heap := heap w;
     user_data := user_data w; outbox := outbox w |}.

(** Reading the file raises nothing that [load_data] lets through: the file
    holds a document or UTF-8 text, or nothing is at the path. *)
Definition readable (fs : fsys) (file_path : string) : Prop :=
  match read_json fs file_path with
  | OtherError _ => False
  | _ => True
  end.

Global Instance readable_dec fs file_path : Decision (readable fs file_path).
Proof. unfold readable. destruct (read_json fs file_path); apply _. Defined.

(** The document [load_data(path, {key: []})] denotes on a file system
    where the section's file is readable. *)
Definition loaded (fs : fsys) (section key : string) : jdoc :=
  match fs !! structure_path section with
  | Some (Json d) => d
  | Some (NotJson _) | None => [(key, [])]
  end.

(** [error_handler]: the reply, without a keyboard, to an update whose
    handler raised. *)
Definition error_handler : M unit :=
  reply_text "Произошла ошибка. Попробуйте снова." [].

(** [main] registers the three message handlers in one group, with one
    filter.  The application hands an update to the first handler of a
    group whose filter accepts it and to no other handler of the group:
    every text message that is no command goes to [handle_menu], and an
    exception that leaves the handler goes to [error_handler]. *)
Definition dispatch (ADMINS : list Z) (u : update) : M unit := λ w,
  match handle_menu ADMINS u w with
  | (Ok tt, w') => (Ok tt, w')
  | (Raise _, w') => error_handler w'
  end.

(** A conversation: the text messages of one user, none of them a command,
    each with the clock reading at its arrival. *)
Fixpoint converse (ADMINS : list Z) (uid : Z)
    (msgs : list (datetime * string)) (w : world) : world :=
  match msgs with
  | [] => w
  | (t, m) :: msgs' =>
      converse ADMINS uid msgs'
        (run (dispatch ADMINS {| user_id := uid; message_text := m |})
             (at_time t w))
  end.

(** The three handlers by name, for statements over any order of calls. *)
Inductive handler := Menu | AdminPanel | AdminInput.

Definition run_handler (ADMINS : list Z) (h : handler) (u : update)
  : M unit :=
  match h with
  | Menu => handle_menu ADMINS u
  | AdminPanel => handle_admin_panel ADMINS u
  | AdminInput => handle_admin_input ADMINS u
  end.

(** The top-level state as every handler reads it:
    [user_data.get("state", "main_menu")]. *)
Definition top_state (s : session) : string := default "main_menu" (state s).

(** What [load_data(path, {key: []})[key]] denotes on a file system where
    the section's file is readable: the Items stored for a section, none
    when [load_data] falls back on the default, and [None] when the
    document lacks the key. *)
Definition stored_items (fs : fsys) (section key : string)
  : option (list Item) :=
  match fs !! structure_path section with
  | Some (Json d) => dict_get d key
  | Some (NotJson _) | None => Some []
  end.

(** Successive saves of one file, each at its clock reading. *)
Fixpoint saves (file_path : string) (l : list (datetime * file_text))
    (fs : fsys) : fsys :=
  match l with
  | [] => fs
  | (t, content) :: l' => saves file_path l' (write_file t file_path content fs)
  end.


(** The first Item of a sequence that bears a name. *)
Definition first_named (msg : string) (items : list Item) : option Item :=
  List.find (λ it, String.eqb (item_name it) msg) items.

(** Every Item different from [sel], in order: what the comprehension of
    the delete branch keeps. *)
Definition without (sel : Item) (items : list Item) : list Item :=
  filter (λ it, it ≠ sel) items.

(** The deletion as the specification words it: the first Item equal to
    [sel] goes, later equal Items stay. *)
Fixpoint remove_first (sel : Item) (items : list Item) : list Item :=
  match items with
  | [] => []
  | it :: items' =>
      if decide (it = sel) then items' else it :: remove_first sel items'
  end.

(** ** Snapshot names and the state of the backup directory *)

(** The strict order of names. *)
Definition name_lt (s1 s2 : string) : Prop := String.compare s1 s2 = Lt.

(** A path that is no entry of the backup directory. *)
Definition outside_backups (path : string) : Prop :=
  ∀ n, path ≠ "backups/" +:+ n.

(** The backup directory holds regular files only, and no regular file
    stands in its place. *)
Definition flat_backups (fs : fsys) : Prop :=
  fs !! "backups" = None
  ∧ Forall (λ q : string,
              match Py.strip_prefix "backups/" q with
              | Some n => Py.count "/" n = 0
              | None => True
              end) (map_to_list fs).*1.

Global Instance flat_backups_dec fs : Decision (flat_backups fs).
Proof.
  unfold flat_backups. apply and_dec; [apply _|]. apply Forall_dec.
  intros q. destruct (Py.strip_prefix "backups/" q); apply _.
Defined.

(** [save_data] can write the file: the path is in normal form and has a
    directory part, no regular file stands where it needs a directory, and
    it is not itself a directory. *)
Definition writable (fs : fsys) (file_path : string) : Prop :=
  normalised file_path
  ∧ Py.count "/" file_path ≠ 0
  ∧ below_file fs file_path = false
  ∧ is_dir fs file_path = false.

Global Instance writable_dec fs file_path : Decision (writable fs file_path).
Proof. unfold writable. apply _. Defined.

(** What [create_backup] leaves when the new snapshot is younger than every
    listed one. *)
Definition rotate {A} (names : list A) (n : A) : list A :=
  if 10 <? length (names ++ [n]) then drop 1 (names ++ [n]) else names ++ [n].



(** ** Scenarios

    One administrator, one section file, and conversations at successive
    clock seconds. *)

Module Scenario.

Definition admin : Z := 42%Z.
Definition ADMINS : list Z := [admin].

Definition at_second (s : nat) : datetime :=
  {| year := 2024; month := 1; day := 5; hour := 9; minute := 3; second := s |}.

Definition item_A : Item := {| item_id := "1"; item_name := "A" |}.
Definition item_B : Item := {| item_id := "2"; item_name := "B" |}.

(** A store whose only file is the collection of the tests section. *)
Definition store (items : list Item) : fsys :=
  {[ structure_path "tests" := Json [("tests", items)] ]}.

(** A session inside the admin panel. *)
Definition in_panel (st : option string) (section : slot string) : session :=
  {| state := Some "admin_panel"; admin_state := st;
     admin_section := section; admin_selected_item := Absent |}.

Definition world_of (fs : fsys) (s : session) : world :=
  {| clock := at_second 0; files := fs; heap := []; user_data := s;
     outbox := [] |}.

Definition say (m : string) : update :=
  {| user_id := admin; message_text := m |}.

(** Handler calls for the administrator's messages, one second apart,
    the first at second [s]. *)
Fixpoint calls_from (s : nat) (l : list (handler * string)) (w : world)
  : world :=
  match l with
  | [] => w
  | (h, m) :: l' =>
      calls_from (S s) l'
        (run (run_handler ADMINS h (say m)) (at_time (at_second s) w))
  end.

Definition talk (l : list (handler * string)) (w : world) : world :=
  calls_from 1 l w.

(** The three steps of a deletion and of an addition in the tests section:
    the panel button, the section, the name. *)
Definition delete_from_tests (name : string) : list (handler * string) :=
  [(AdminPanel, "Удалить элемент"); (AdminInput, "Тесты"); (AdminInput, name)].

Definition add_to_tests (name : string) : list (handler * string) :=
  [(AdminPanel, "Добавить элемент"); (AdminInput, "Тесты"); (AdminInput, name)].


(** The topics file saved at seconds 0 to 10, then the tests file created
    at second 11: ten snapshots, all of them copies of the topics file. *)
Definition topics_doc (i : nat) : file_text :=
  Json [("topics", replicate i item_B)].

Definition ten_topic_snapshots : fsys :=
  write_file (at_second 11) (structure_path "tests") (Json [("tests", [])])
    (saves (structure_path "theory")
       ((λ i, (at_second i, topics_doc i)) <$> seq 0 11) ∅).

End Scenario.

(** ** Further notions for the properties of the handlers and the store *)

(** A path is foreign to the pool of a file when it is neither the file
    nor an entry of the backup directory that starts with the file's base
    name. *)
Definition foreign_to (file_path q : string) : Prop :=
  q ≠ file_path
  ∧ ∀ n, Py.startswith n (Py.basename file_path) = true →
         q ≠ "backups/" +:+ n.

(** A computation keeps a component of the world when every run, normal or
    exceptional, ends with the component as it found it. *)
Definition keeps {A B} (π : world → B) (m : M A) : Prop :=
  ∀ w, π (m w).2 = π w.

(** The top-level state, as a component of the world. *)
Definition state_of (w : world) : option string := state (user_data w).

(** The session a user outside the allow-list is sent back to. *)
Definition put_out (s : session) : session :=
  {| state := Some "main_menu"; admin_state := None;
     admin_section := admin_section s;
     admin_selected_item := admin_selected_item s |}.



(** The Items that additions of the given payloads create after [n] stored
    ones. *)
Fixpoint numbered (n : nat) (payloads : list string) : list Item :=
  match payloads with
  | [] => []
  | p :: payloads' =>
      {| item_id := Py.str_of_nat (n + 1); item_name := Py.strip p |}
      :: numbered (S n) payloads'
  end.

(** * Properties *)

(** ** Strings *)

Lemma app_cons a s r : String a s +:+ r = String a (s +:+ r).
Proof. reflexivity. Qed.



Lemma strip_prefix_app p r : Py.strip_prefix p (p +:+ r) = Some r.
Proof.
  induction p as [|a p IH]; [done|].
  rewrite app_cons. cbn. by rewrite Ascii.eqb_refl.
Qed.

Lemma strip_prefix_Some p s r : Py.strip_prefix p s = Some r → s = p +:+ r.
Proof.
  revert s. induction p as [|a p IH]; intros s H.
  - cbn in H. by simplify_eq.
  - destruct s as [|b s]; [done|]. cbn in H.
    destruct (Ascii.eqb a b) eqn:E; [|done].
    apply Ascii.eqb_eq in E as ->. rewrite app_cons. f_equal. by apply IH.
Qed.

Lemma count_app c s1 s2 : Py.count c (s1 +:+ s2) = Py.count c s1 + Py.count c s2.
Proof.
  induction s1 as [|a s1 IH]; [done|]. rewrite app_cons. cbn. rewrite IH. lia.
Qed.

Lemma split_nonempty sep s : Py.split sep s ≠ [].
Proof.
  induction s as [|a s IH]; [done|]. cbn.
  destruct (Ascii.eqb a sep); [done|]. by destruct (Py.split sep s).
Qed.

Lemma split_length sep s : length (Py.split sep s) = S (Py.count sep s).
Proof.
  induction s as [|a s IH]; [done|]. cbn.
  destruct (Ascii.eqb a sep); cbn; [by rewrite IH|].
  pose proof (split_nonempty sep s).
  destruct (Py.split sep s); [done|]. cbn in *. lia.
Qed.





Lemma compare_refl s : String.compare s s = Eq.
Proof.
  induction s as [|a s IH]; [done|]. cbn.
  unfold Ascii.compare. by rewrite N.compare_refl.
Qed.

Lemma compare_app p a b : String.compare (p +:+ a) (p +:+ b) = String.compare a b.
Proof.
  induction p as [|c p IH]; [done|]. rewrite !app_cons. cbn.
  unfold Ascii.compare. by rewrite N.compare_refl.
Qed.

Lemma name_lt_le s1 s2 : name_lt s1 s2 → String.le s1 s2.
Proof. unfold name_lt, String.le, String.leb. by intros ->. Qed.

Lemma name_lt_ne s1 s2 : name_lt s1 s2 → s1 ≠ s2.
Proof. unfold name_lt. intros H ->. by rewrite compare_refl in H. Qed.

Lemma name_lt_app p a b : name_lt a b → name_lt (p +:+ a) (p +:+ b).
Proof. unfold name_lt. by rewrite compare_app. Qed.
Lemma app_nil_r_s s : s +:+ EmptyString = s.
Proof. induction s as [|a s IH]; [done|]. by rewrite app_cons, IH. Qed.

(** ** Timestamps *)

Lemma digit_compare a b :
  a < 10 → b < 10 → Ascii.compare (digit a) (digit b) = Nat.compare a b.
Proof.
  intros Ha Hb.
  do 10 (destruct a as [|a]; [do 10 (destruct b as [|b]; [reflexivity|]); lia|]).
  lia.
Qed.

Lemma digit_not_slash d : Ascii.eqb (digit d) "/" = false.
Proof.
  unfold digit. pose proof (Nat.mod_upper_bound d 10 ltac:(lia)) as H.
  destruct (d mod 10) as [|n]; [done|].
  do 9 (destruct n as [|n]; [done|]). lia.
Qed.

Lemma pad_no_slash w n : Py.count "/" (pad w n) = 0.
Proof.
  revert n. induction w as [|w IH]; intros n; [done|].
  cbn [pad Py.count]. by rewrite digit_not_slash, IH.
Qed.

Lemma pad_compare w n m s t :
  n < 10 ^ w → m < 10 ^ w →
  String.compare (pad w n +:+ s) (pad w m +:+ t)
  = match Nat.compare n m with Eq => String.compare s t | c => c end.
Proof.
  revert n m. induction w as [|w IH]; intros n m Hn Hm.
  - cbn in Hn, Hm. assert (n = 0) as -> by lia. assert (m = 0) as -> by lia.
    done.
  - cbn [pad]. rewrite !app_cons. cbn [String.compare].
    assert (10 ^ w ≠ 0) as Hpos by (apply Nat.pow_nonzero; lia).
    rewrite Nat.pow_succ_r' in Hn, Hm.
    pose proof (Nat.div_mod_eq n (10 ^ w)) as En.
    pose proof (Nat.div_mod_eq m (10 ^ w)) as Em.
    pose proof (Nat.mod_upper_bound n (10 ^ w) ltac:(lia)) as Bn.
    pose proof (Nat.mod_upper_bound m (10 ^ w) ltac:(lia)) as Bm.
    assert (n / 10 ^ w < 10) as Qn by (apply Nat.Div0.div_lt_upper_bound; lia).
    assert (m / 10 ^ w < 10) as Qm by (apply Nat.Div0.div_lt_upper_bound; lia).
    rewrite digit_compare by done.
    destruct (Nat.compare_spec (n / 10 ^ w) (m / 10 ^ w)) as [E|L|G].
    + rewrite IH by done.
      destruct (Nat.compare_spec (n mod 10 ^ w) (m mod 10 ^ w)) as [E'|L'|G'].
      * assert (n = m) as -> by nia. by rewrite Nat.compare_refl.
      * assert (n < m) as ->%Nat.compare_lt_iff by nia. done.
      * assert (m < n) as ->%Nat.compare_gt_iff by nia. done.
    + assert (n < m) as ->%Nat.compare_lt_iff by nia. done.
    + assert (m < n) as ->%Nat.compare_gt_iff by nia. done.
Qed.

Lemma strftime_no_slash t : Py.count "/" (strftime t) = 0.
Proof. unfold strftime. by rewrite !count_app, !pad_no_slash. Qed.

Lemma year_digits_valid t : valid_datetime t → year_digits (year t) = 4.
Proof.
  intros [[H _] _]. unfold year_digits. change (10 ^ 3) with 1000 in H.
  by rewrite !(proj2 (Nat.ltb_ge _ _)) by lia.
Qed.

Lemma strftime_mono t1 t2 :
  valid_datetime t1 → valid_datetime t2 → earlier t1 t2 →
  name_lt (strftime t1) (strftime t2).
Proof.
  intros Hv1 Hv2. unfold strftime.
  rewrite (year_digits_valid _ Hv1), (year_digits_valid _ Hv2).
  revert Hv1 Hv2. unfold valid_datetime, earlier, dt_key, name_lt.
  intros (Hy1 & Hm1 & Hd1 & Hh1 & Hi1 & Hs1) (Hy2 & Hm2 & Hd2 & Hh2 & Hi2 & Hs2).
  cbn [lex_lt]. intros H.
  rewrite <- (app_nil_r_s (pad 2 (second t1))), <- (app_nil_r_s (pad 2 (second t2))).
  rewrite (pad_compare 4) by lia.
  rewrite (pad_compare 2 (month t1)) by (cbn; lia).
  rewrite (pad_compare 2 (day t1)) by (cbn; lia).
  rewrite (compare_app "_").
  rewrite (pad_compare 2 (hour t1)) by (cbn; lia).
  rewrite (pad_compare 2 (minute t1)) by (cbn; lia).
  rewrite (pad_compare 2 (second t1)) by (cbn; lia).
  cbn [String.compare].
  repeat match goal with
  | |- context [ Nat.compare ?a ?b ] =>
      destruct (Nat.compare_spec a b); try done; try lia
  end.
Qed.

(** ** Directory listings *)

Lemma entry_of_Some d path n :
  entry_of d path = Some n ↔ path = (d +:+ "/") +:+ n ∧ Py.count "/" n = 0.
Proof.
  unfold entry_of. split.
  - destruct (Py.strip_prefix (d +:+ "/") path) as [r|] eqn:E; [|done].
    destruct (Nat.eqb_spec (Py.count "/" r) 0); [|done].
    intros [= <-]. split; [by apply strip_prefix_Some|done].
  - intros [-> H]. by rewrite strip_prefix_app, H.
Qed.

Lemma elem_of_listdir (fs : fsys) d n :
  n ∈ listdir fs d ↔ is_Some (fs !! ((d +:+ "/") +:+ n)) ∧ Py.count "/" n = 0.
Proof.
  unfold listdir. rewrite list_elem_of_omap. split.
  - intros (p & Hp & [-> Hn]%entry_of_Some). split; [|done].
    apply list_elem_of_fmap in Hp as ([p c] & -> & Hpc).
    apply elem_of_map_to_list in Hpc. by eexists.
  - intros [[c Hc] Hn]. exists ((d +:+ "/") +:+ n). split.
    + apply list_elem_of_fmap. exists ((d +:+ "/") +:+ n, c). split; [done|].
      by apply elem_of_map_to_list.
    + by apply entry_of_Some.
Qed.

Lemma NoDup_omap_inj {A B} (f : A → option B) (l : list A) :
  (∀ x y z, f x = Some z → f y = Some z → x = y) →
  NoDup l → NoDup (omap f l).
Proof.
  intros Hinj. induction 1 as [|x l Hx Hl IH]; cbn; [constructor|].
  destruct (f x) as [z|] eqn:E; [|done].
  constructor; [|done].
  intros (y & Hy & Hfy)%list_elem_of_omap.
  by rewrite (Hinj _ _ _ E Hfy) in Hx.
Qed.

Lemma NoDup_listdir (fs : fsys) d : NoDup (listdir fs d).
Proof.
  apply NoDup_omap_inj; [|apply NoDup_fst_map_to_list].
  intros x y z [-> _]%entry_of_Some [-> _]%entry_of_Some. done.
Qed.

Lemma elem_of_backups_of (fs : fsys) file_path n :
  n ∈ backups_of fs file_path ↔
    is_Some (fs !! ("backups/" +:+ n)) ∧ Py.count "/" n = 0
    ∧ Py.startswith n (Py.basename file_path) = true.
Proof.
  unfold backups_of, Py.sorted.
  rewrite merge_sort_Permutation, list_elem_of_filter, elem_of_listdir.
  rewrite Is_true_true. change ("backups" +:+ "/") with "backups/". tauto.
Qed.

Lemma NoDup_backups_of (fs : fsys) file_path : NoDup (backups_of fs file_path).
Proof.
  unfold backups_of, Py.sorted. rewrite merge_sort_Permutation.
  apply NoDup_filter, NoDup_listdir.
Qed.

Lemma StronglySorted_backups_of (fs : fsys) file_path :
  StronglySorted String.le (backups_of fs file_path).
Proof. apply StronglySorted_merge_sort; apply _. Qed.

(** A sorted list without repetition with the entries of the listing is the
    listing. *)
Lemma backups_of_unique (fs : fsys) file_path l :
  StronglySorted String.le l → NoDup l →
  (∀ n, n ∈ l ↔ n ∈ backups_of fs file_path) →
  backups_of fs file_path = l.
Proof.
  intros Hs Hn Hmem. apply (StronglySorted_unique String.le).
  - apply StronglySorted_backups_of.
  - done.
  - apply NoDup_Permutation; [apply NoDup_backups_of|done|]. intros n. by rewrite Hmem.
Qed.


(** ** One backup, one save *)

Lemma name_lt_irrefl s : ¬ name_lt s s.
Proof. unfold name_lt. by rewrite compare_refl. Qed.

Lemma name_lt_sorted_le l : StronglySorted name_lt l → StronglySorted String.le l.
Proof.
  induction 1 as [|x l _ IH Hx]; constructor; [done|].
  eapply Forall_impl; [done|]. intros y. apply name_lt_le.
Qed.

Lemma name_lt_sorted_NoDup l : StronglySorted name_lt l → NoDup l.
Proof.
  induction 1 as [|x l _ IH Hx]; constructor; [|done].
  intros Hin. rewrite Forall_forall in Hx. by apply (name_lt_irrefl x), Hx.
Qed.

Lemma le_ne_name_lt s1 s2 : String.le s1 s2 → s1 ≠ s2 → name_lt s1 s2.
Proof.
  unfold String.le, String.leb, name_lt. intros Hle Hne.
  destruct (String.compare s1 s2) eqn:E; [|done..].
  by apply String.compare_eq_iff in E.
Qed.

Lemma backups_of_strict (fs : fsys) file_path :
  StronglySorted name_lt (backups_of fs file_path).
Proof.
  pose proof (StronglySorted_backups_of fs file_path) as Hs.
  pose proof (NoDup_backups_of fs file_path) as Hn.
  induction Hs as [|x l _ IH Hx]; [constructor|].
  apply NoDup_cons in Hn as [Hx' Hn]. constructor; [by apply IH|].
  rewrite Forall_forall in Hx |- *. intros y Hy.
  apply le_ne_name_lt; [by apply Hx|]. by intros ->.
Qed.

Lemma backups_of_is (fs : fsys) file_path l :
  StronglySorted name_lt l →
  (∀ n, n ∈ l ↔ n ∈ backups_of fs file_path) →
  backups_of fs file_path = l.
Proof.
  intros Hs Hmem.
  apply backups_of_unique; auto using name_lt_sorted_le, name_lt_sorted_NoDup.
Qed.

Lemma structure_path_outside section : outside_backups (structure_path section).
Proof. intros n. unfold structure_path. rewrite !app_cons. by intros [=]. Qed.

Lemma elem_of_backups_of_insert (fs : fsys) file_path n c x :
  Py.count "/" n = 0 → Py.startswith n (Py.basename file_path) = true →
  x ∈ backups_of (<["backups/" +:+ n := c]> fs) file_path ↔
    x = n ∨ x ∈ backups_of fs file_path.
Proof.
  intros Hn1 Hn2. rewrite !elem_of_backups_of.
  destruct (decide (x = n)) as [->|Hne].
  - rewrite lookup_insert_eq. split; [by left|]. intros _. by eauto.
  - rewrite lookup_insert_ne; [tauto|]. by intros ?%(inj (String.app _)).
Qed.

Lemma elem_of_backups_of_delete (fs : fsys) file_path b x :
  x ∈ backups_of (delete ("backups/" +:+ b) fs) file_path ↔
    x ≠ b ∧ x ∈ backups_of fs file_path.
Proof.
  rewrite !elem_of_backups_of.
  destruct (decide (x = b)) as [->|Hne].
  - rewrite lookup_delete_eq. split; [by intros [[? [=]] _]|tauto].
  - rewrite lookup_delete_ne; [tauto|]. by intros ?%(inj (String.app _)).
Qed.

Lemma backups_of_insert_outside (fs : fsys) file_path q c :
  outside_backups q →
  backups_of (<[q := c]> fs) file_path = backups_of fs file_path.
Proof.
  intros Hq. apply backups_of_is; [apply backups_of_strict|].
  intros n. rewrite !elem_of_backups_of. by rewrite lookup_insert_ne.
Qed.

Lemma backup_name_no_slash file_path t :
  Py.count "/" (Py.basename file_path) = 0 →
  Py.count "/" (backup_name file_path t) = 0.
Proof.
  intros H. unfold backup_name. by rewrite !count_app, H, strftime_no_slash.
Qed.

Lemma backup_name_startswith file_path t :
  Py.startswith (backup_name file_path t) (Py.basename file_path) = true.
Proof. unfold Py.startswith, backup_name. by rewrite strip_prefix_app. Qed.

Lemma backup_name_mono file_path t1 t2 :
  valid_datetime t1 → valid_datetime t2 → earlier t1 t2 →
  name_lt (backup_name file_path t1) (backup_name file_path t2).
Proof.
  intros. unfold backup_name. do 2 apply name_lt_app. by apply strftime_mono.
Qed.

Lemma create_backup_spec (fs : fsys) file_path t c names :
  let n := backup_name file_path t in
  fs !! file_path = Some c →
  outside_backups file_path →
  Py.count "/" (Py.basename file_path) = 0 →
  backups_of fs file_path = names →
  StronglySorted name_lt (names ++ [n]) →
  let fs' := create_backup t file_path fs in
  backups_of fs' file_path = rotate names n
  ∧ fs' !! ("backups/" +:+ n) = Some c
  ∧ (∀ x, x ∈ rotate names n → x ≠ n →
       fs' !! ("backups/" +:+ x) = fs !! ("backups/" +:+ x))
  ∧ (∀ q, outside_backups q → fs' !! q = fs !! q).
Proof.
  intros n Hc Hout Hbase Hnames Hsorted fs'.
  set (fs1 := <["backups/" +:+ n := c]> fs).
  assert (backups_of fs1 file_path = names ++ [n]) as H1.
  { apply backups_of_is; [done|]. intros x. unfold fs1.
    rewrite elem_of_backups_of_insert;
      [|by apply backup_name_no_slash|by apply backup_name_startswith].
    rewrite elem_of_app, list_elem_of_singleton, Hnames. tauto. }
  assert (fs' = if 10 <? length (names ++ [n])
                then match names ++ [n] with
                     | b0 :: _ => delete ("backups/" +:+ b0) fs1
                     | [] => fs1
                     end
                else fs1) as Hfs'.
  { unfold fs', create_backup. rewrite Hc. fold n. fold fs1. by rewrite H1. }
  unfold rotate. destruct (10 <? length (names ++ [n])) eqn:Hlen.
  - apply Nat.ltb_lt in Hlen.
    destruct (names ++ [n]) as [|b0 rest] eqn:El; [cbn in Hlen; lia|].
    apply StronglySorted_cons in Hsorted as [Hb0 Hrest]. rewrite Forall_forall in Hb0.
    assert (b0 ≠ n) as Hb0n.
    { destruct names as [|y names]; cbn in El; injection El as <- <-.
      - cbn in Hlen. lia.
      - apply name_lt_ne, Hb0, elem_of_app. right. by apply list_elem_of_singleton. }
    rewrite Hfs'. cbn [drop]. split_and!.
    + apply backups_of_is; [done|]. intros x.
      rewrite elem_of_backups_of_delete, H1, elem_of_cons.
      split; [|by intros [Hne [->|Hx]]].
      intros Hx. split; [|by right]. intros ->. by apply (name_lt_irrefl b0), Hb0.
    + rewrite lookup_delete_ne by (by intros ?%(inj (String.app _))).
      apply lookup_insert_eq.
    + intros x Hx Hxn.
      rewrite lookup_delete_ne.
      * unfold fs1. rewrite lookup_insert_ne; [done|]. by intros ?%(inj (String.app _)).
      * intros ?%(inj (String.app _)). subst. by apply (name_lt_irrefl x), Hb0.
    + intros q Hq. rewrite lookup_delete_ne by done.
      unfold fs1. by rewrite lookup_insert_ne.
  - rewrite Hfs'. split_and!; [done|apply lookup_insert_eq| |].
    + intros x _ Hxn. unfold fs1. rewrite lookup_insert_ne; [done|].
      by intros ?%(inj (String.app _)).
    + intros q Hq. unfold fs1. by rewrite lookup_insert_ne.
Qed.

Lemma structure_path_dir section : Py.count "/" (structure_path section) ≠ 0.
Proof. unfold structure_path. rewrite !count_app. cbn. lia. Qed.


Lemma write_file_existing (fs : fsys) file_path t c c0 :
  Py.count "/" file_path ≠ 0 →
  fs !! file_path = Some c0 →
  write_file t file_path c fs = <[file_path := c]> (create_backup t file_path fs).
Proof.
  intros Hdir%Nat.eqb_neq H. unfold write_file. rewrite H, Hdir.
  destruct (decide (is_Some (Some c0))) as [|[]]; eauto.
Qed.

(** ** Fifteen saves *)






Section Saves.

Variable file_path : string.
Hypothesis Hout : outside_backups file_path.
Hypothesis Hbase : Py.count "/" (Py.basename file_path) = 0.
Hypothesis Hdir : Py.count "/" file_path ≠ 0.





End Saves.



(** ** One pool for all sections *)



(** ** Documents and the heap *)

Lemma dump_items_Some h ls items :
  dump_items h ls = Some items ↔ Forall2 (λ l it, h !! l = Some it) ls items.
Proof. unfold dump_items. apply mapM_Some. Qed.



Lemma dump_items_seq h items ext :
  dump_items (h ++ items ++ ext) (seq (length h) (length items)) = Some items.
Proof.
  apply dump_items_Some. apply Forall2_same_length_lookup. split.
  - by rewrite length_seq.
  - intros i l it Hl Hit. apply lookup_seq in Hl as [-> Hi].
    rewrite lookup_app_r by lia. replace (length h + i - length h) with i by lia.
    by apply lookup_app_l_Some.
Qed.



Lemma alloc_doc_spec d : ∀ h,
  ∃ ext, (alloc_doc h d).1 = h ++ ext
         ∧ dump (h ++ ext) (alloc_doc h d).2 = Some d.
Proof.
  induction d as [|[k items] d IH]; intros h.
  - exists []. by rewrite app_nil_r.
  - cbn. destruct (IH (h ++ items)) as (ext & E1 & E2).
    destruct (alloc_doc (h ++ items) d) as [h' pd]. cbn in *.
    exists (items ++ ext). rewrite (assoc_L (++)). split; [done|].
    by rewrite <- (assoc_L (++)), dump_items_seq, (assoc_L (++)), E2.
Qed.

Lemma dump_dict_get h pd d key items :
  dump h pd = Some d → dict_get d key = Some items →
  ∃ ls, dict_get pd key = Some ls ∧ dump_items h ls = Some items.
Proof.
  revert d. induction pd as [|[k ls] pd IH]; intros d.
  - by intros [= <-].
  - cbn. destruct (dump_items h ls) as [its|] eqn:E1; [|done].
    destruct (dump h pd) as [d'|] eqn:E2; [|done].
    intros [= <-]. cbn. destruct (String.eqb k key); [|by apply IH].
    intros [= <-]. eauto.
Qed.

Lemma dump_dict_set h pd d key ls items :
  dump h pd = Some d → dump_items h ls = Some items →
  dump h (dict_set pd key ls) = Some (dict_set d key items).
Proof.
  revert d. induction pd as [|[k ls0] pd IH]; intros d.
  - intros [= <-] E. cbn. by rewrite E.
  - cbn. destruct (dump_items h ls0) as [its|] eqn:E1; [|done].
    destruct (dump h pd) as [d'|] eqn:E2; [|done].
    intros [= <-] E. cbn. destruct (String.eqb k key); cbn.
    + by rewrite E, E2.
    + by rewrite E1, (IH d').
Qed.

Lemma dict_get_set {V} (d : list (string * V)) key v :
  dict_get (dict_set d key v) key = Some v.
Proof.
  induction d as [|[k v0] d IH]; cbn.
  - by rewrite String.eqb_refl.
  - destruct (String.eqb k key) eqn:E; cbn; by rewrite ?E.
Qed.

(** ** Running the primitives *)

Lemma bind_Ok {A B} (m : M A) (f : A → M B) w a w' :
  m w = (Ok a, w') → (m ≫= f) w = f a w'.
Proof. unfold mbind, M_bind. by intros ->. Qed.

Lemma bind_Raise {A B} (m : M A) (f : A → M B) w e w' :
  m w = (Raise e, w') → (m ≫= f) w = (Raise e, w').
Proof. unfold mbind, M_bind. by intros ->. Qed.

Lemma with_heap_id w : with_heap (heap w) w = w.
Proof. by destruct w. Qed.

Lemma read_json_Json fs file_path d :
  fs !! file_path = Some (Json d) → read_json fs file_path = Document d.
Proof. unfold read_json. by intros ->. Qed.

Lemma readable_Json fs file_path d :
  fs !! file_path = Some (Json d) → readable fs file_path.
Proof. unfold readable. by intros ->%read_json_Json. Qed.

(** On a readable file [read_json] agrees with the lookup: a document, or
    one of the two exceptions that [load_data] catches. *)
Lemma read_json_readable fs file_path :
  readable fs file_path →
  match fs !! file_path with
  | Some (Json d) => read_json fs file_path = Document d
  | Some (NotJson _) => read_json fs file_path = JSONDecodeError
  | None => read_json fs file_path = FileNotFoundError
  end.
Proof.
  unfold readable, read_json.
  destruct (fs !! file_path) as [[d|raw]|]; [done|..].
  - by destruct (Py.utf8_error raw).
  - destruct (below_file fs file_path); [done|].
    by destruct (is_dir fs file_path).
Qed.

Lemma load_data_section w section key :
  readable (files w) (structure_path section) →
  ∃ pd ext,
    load_data (structure_path section) (Some [(key, [])]) w
    = (Ok pd, with_heap (heap w ++ ext) w)
    ∧ dump (heap w ++ ext) pd = Some (loaded (files w) section key).
Proof.
  intros Hr%read_json_readable. unfold load_data, loaded.
  destruct (files w !! structure_path section) as [[d|raw]|] eqn:E;
    rewrite Hr.
  - destruct (alloc_doc_spec d (heap w)) as (ext & E1 & E2).
    destruct (alloc_doc (heap w) d) as [h' pd]. cbn in *. subst h'. eauto.
  - exists [(key, [])], []. by rewrite app_nil_r, with_heap_id.
  - exists [(key, [])], []. by rewrite app_nil_r, with_heap_id.
Qed.

(** A section with a stored Item, or whose document lacks the key, has a
    document for a file. *)
Lemma stored_items_readable fs section key items :
  stored_items fs section key = Some items → items ≠ [] →
  readable fs (structure_path section).
Proof.
  unfold stored_items.
  destruct (fs !! structure_path section) as [[d|raw]|] eqn:E;
    [|by intros [= <-]..].
  intros _ _. by eapply readable_Json.
Qed.

Lemma stored_items_None_readable fs section key :
  stored_items fs section key = None → readable fs (structure_path section).
Proof.
  unfold stored_items.
  destruct (fs !! structure_path section) as [[d|raw]|] eqn:E; [|done..].
  intros _. by eapply readable_Json.
Qed.

Lemma first_named_nonempty msg items it :
  first_named msg items = Some it → items ≠ [].
Proof. by destruct items. Qed.

Lemma stored_items_loaded fs section key :
  stored_items fs section key = dict_get (loaded fs section key) key.
Proof.
  unfold stored_items, loaded.
  destruct (fs !! structure_path section) as [[d|raw]|]; cbn;
    by rewrite ?String.eqb_refl.
Qed.

Lemma find_by_name_spec w ls items msg :
  dump_items (heap w) ls = Some items →
  ∃ found, find_by_name ls msg w = (Ok found, w)
    ∧ match found with
      | Some l => ∃ it, heap w !! l = Some it ∧ first_named msg items = Some it
      | None => first_named msg items = None
      end.
Proof.
  rewrite dump_items_Some. induction 1 as [|l it ls items Hl _ IH].
  - by exists None.
  - cbn. unfold item_at. rewrite (bind_Ok _ _ w it w) by (by rewrite Hl).
    destruct (String.eqb (item_name it) msg) eqn:E.
    + exists (Some l). split; [done|]. by exists it.
    + done.
Qed.

Lemma remove_equal_spec w ls items sel s :
  dump_items (heap w) ls = Some items → heap w !! sel = Some s →
  ∃ kept, remove_equal ls sel w = (Ok kept, w)
          ∧ dump_items (heap w) kept = Some (without s items).
Proof.
  rewrite dump_items_Some. intros H Hs. induction H as [|l it ls items Hl _ IH].
  - by exists [].
  - destruct IH as (kept & Hrun & Hkept). cbn [remove_equal].
    rewrite (bind_Ok _ _ w it w) by (unfold item_at; by rewrite Hl).
    rewrite (bind_Ok _ _ w s w) by (unfold item_at; by rewrite Hs).
    rewrite (bind_Ok _ _ w kept w) by done.
    unfold without. rewrite filter_cons.
    destruct (decide (it = s)) as [->|Hne].
    + exists kept. split; [done|]. by rewrite decide_False by (by intros []).
    + exists (l :: kept). split; [done|]. rewrite decide_True by done.
      apply dump_items_Some. constructor; [done|]. by apply dump_items_Some.
Qed.

(** ** Entering [handle_admin_input] *)

Lemma handle_admin_input_enter ADMINS u w st :
  is_admin ADMINS (user_id u) = true →
  state (user_data w) = Some "admin_panel" →
  admin_state (user_data w) = Some st → st ≠ EmptyString →
  handle_admin_input ADMINS u w
  = try_except (admin_input_chain (Some st) (message_text u))
      on_value_error on_exception w.
Proof.
  intros Hadm Hst Hast Hne. unfold handle_admin_input.
  rewrite (bind_Ok _ _ w (user_data w) w) by done.
  rewrite Hst, Hast, Hadm. cbn [default from_option negb orb truthy].
  apply String.eqb_neq in Hne. rewrite Hne. done.
Qed.

Lemma current_section_run w label sk :
  admin_section (user_data w) = Val label →
  dict_get admin_sections label = Some sk →
  current_section w = (Ok (label, sk), w).
Proof.
  intros Hsec Hsk. unfold current_section.
  rewrite (bind_Ok _ _ w (user_data w) w) by done. rewrite Hsec.
  unfold getitem. rewrite Hsk. done.
Qed.

Lemma getitem_run {V} (d : list (string * V)) key v w :
  dict_get d key = Some v → getitem d key w = (Ok v, w).
Proof. unfold getitem. by intros ->. Qed.

Lemma bind_assoc {A B C} (m : M A) (f : A → M B) (g : B → M C) w :
  ((m ≫= f) ≫= g) w = (m ≫= (λ a, f a ≫= g)) w.
Proof. unfold mbind, M_bind. by destruct (m w) as [[a|e] w']. Qed.

Lemma save_data_run file_path data w d :
  dump (heap w) data = Some d →
  save_data file_path data w
  = (Ok tt, with_files (write_file (clock w) file_path (Json d) (files w)) w).
Proof. unfold save_data. by intros ->. Qed.

Lemma item_at_run w l it : heap w !! l = Some it → item_at l w = (Ok it, w).
Proof. unfold item_at. by intros ->. Qed.

Lemma stored_items_write_file t section key d fs :
  stored_items (write_file t (structure_path section) (Json d) fs) section key
  = dict_get d key.
Proof.
  unfold stored_items, write_file.
  rewrite (proj2 (Nat.eqb_neq _ _) (structure_path_dir section)).
  by rewrite lookup_insert_eq.
Qed.

Lemma try_except_Ok body hv ho w w' :
  body w = (Ok tt, w') → try_except body hv ho w = (Ok tt, w').
Proof. unfold try_except. by intros ->. Qed.

(** C3, amended.  In [waiting_delete_item_list], when some stored Item
    bears the name received, the Items kept are those that differ from the
    first Item of that name: every Item with the same id and name goes with
    it, Items of the same name and another id stay, and the order is kept.
    The result is saved and the admin state and section are cleared. *)
Theorem delete_removes_every_equal (ADMINS : list Z) (u : update) (w : world)
    (label section key : string) (items : list Item) (sel : Item) :
  is_admin ADMINS (user_id u) = true →
  state (user_data w) = Some "admin_panel" →
  admin_state (user_data w) = Some "waiting_delete_item_list" →
  admin_section (user_data w) = Val label →
  dict_get admin_sections label = Some (section, key) →
  stored_items (files w) section key = Some items →
  first_named (message_text u) items = Some sel →
  let w' := run (handle_admin_input ADMINS u) w in
  stored_items (files w') section key = Some (without sel items)
  ∧ state (user_data w') = Some "admin_panel"
  ∧ admin_state (user_data w') = None
  ∧ admin_section (user_data w') = PyNone.
Proof.
  intros Hadm Hst Hast Hsec Hsk Hitems Hsel w'. unfold w', run.
  rewrite (handle_admin_input_enter _ _ _ _ Hadm Hst Hast) by done.
  change (admin_input_chain _ _) with (on_waiting_delete_item_list (message_text u)).
  unfold on_waiting_delete_item_list.
  destruct (load_data_section w section key) as (pd & ext & Hload & Hdump).
  { eauto using stored_items_readable, first_named_nonempty. }
  rewrite stored_items_loaded in Hitems.
  destruct (dump_dict_get _ _ _ _ _ Hdump Hitems) as (ls & Hget & Hls).
  set (w1 := with_heap (heap w ++ ext) w) in *.
  destruct (find_by_name_spec w1 ls items (message_text u) Hls)
    as (found & Hfind & Hfound).
  rewrite Hsel in Hfound. destruct found as [l|]; [|done].
  destruct Hfound as (it & Hl & [= <-]).
  destruct (remove_equal_spec w1 ls items l sel Hls Hl) as (kept & Hrem & Hkept).
  assert (item_at l w1 = (Ok sel, w1)) as Hat.
  { unfold item_at. by rewrite Hl. }
  erewrite try_except_Ok.
  2:{ rewrite (bind_Ok _ _ _ _ _ (current_section_run w _ _ Hsec Hsk)).
      cbv beta iota zeta.
      rewrite (bind_Ok _ _ _ _ _ Hload).
      rewrite (bind_Ok _ _ _ _ _ (getitem_run _ _ _ _ Hget)).
      rewrite (bind_Ok _ _ _ _ _ Hfind).
      cbv beta iota. rewrite !bind_assoc.
      rewrite (bind_Ok _ _ _ _ _ (getitem_run _ _ _ _ Hget)), !bind_assoc.
      rewrite (bind_Ok _ _ _ _ _ Hrem), !bind_assoc.
      rewrite (bind_Ok _ _ _ _ _
                 (save_data_run (structure_path section) _ w1 _
                    (dump_dict_set _ _ _ key _ _ Hdump Hkept))).
      rewrite !bind_assoc.
      erewrite bind_Ok by (apply item_at_run, Hl).
      reflexivity. }
  cbn -[write_file]. rewrite stored_items_write_file, dict_get_set.
  by rewrite Hst.
Qed.

(** ** Adding to the topics section *)

Lemma chain_add_item user_message :
  admin_input_chain (Some "waiting_add_item") user_message
  = on_waiting_add_item user_message.
Proof. reflexivity. Qed.




(** ** Choosing an empty section *)




(** ** Tolerant reads *)



(** ** The admin panel is closed to other users *)

Lemma is_admin_false ADMINS uid : uid ∉ ADMINS → is_admin ADMINS uid = false.
Proof. intros H. unfold is_admin. by apply bool_decide_eq_false. Qed.

Lemma handle_menu_admin_label_denied ADMINS uid w :
  uid ∉ ADMINS → top_state (user_data w) = "main_menu" →
  handle_menu ADMINS {| user_id := uid; message_text := admin_panel_label |} w
  = (Ok tt,
     with_outbox
       (outbox w ++ [{| text := "Неизвестная команда. Выберите раздел:";
                        keyboard := get_main_menu ADMINS uid;
                        on_send := user_data w |}]) w).
Proof.
  intros Hadm Htop. unfold handle_menu, top_state in *. cbn [user_id message_text].
  rewrite (bind_Ok _ _ w (user_data w) w) by done. rewrite Htop.
  change (String.eqb "main_menu" "admin_panel") with false. cbv iota.
  change (dict_get menu_sections admin_panel_label) with
    (@None (string * string * string * string)).
  rewrite (is_admin_false _ _ Hadm), andb_false_r.
  change (String.eqb admin_panel_label main_menu_label) with false. done.
Qed.

Lemma handle_admin_panel_outside ADMINS u w :
  top_state (user_data w) = "main_menu" →
  handle_admin_panel ADMINS u w = (Ok tt, w).
Proof.
  intros Htop. unfold handle_admin_panel, top_state in *.
  rewrite (bind_Ok _ _ w (user_data w) w) by done. by rewrite Htop.
Qed.

Lemma handle_admin_input_outside ADMINS u w :
  top_state (user_data w) = "main_menu" →
  handle_admin_input ADMINS u w = (Ok tt, w).
Proof.
  intros Htop. unfold handle_admin_input, top_state in *.
  rewrite (bind_Ok _ _ w (user_data w) w) by done. by rewrite Htop.
Qed.

Lemma dispatch_Ok ADMINS u w w' :
  handle_menu ADMINS u w = (Ok tt, w') → dispatch ADMINS u w = (Ok tt, w').
Proof. unfold dispatch. by intros ->. Qed.

(** C6.  For a user outside the allow-list in [main_menu], the admin-panel
    label is an unknown command: whichever handler receives it, the session
    and the files stay as they were; and however many times the label is
    sent, the top-level state is still [main_menu]. *)
Theorem non_admin_never_leaves_main_menu (ADMINS : list Z) (uid : Z) :
  uid ∉ ADMINS →
  let u := {| user_id := uid; message_text := admin_panel_label |} in
  (∀ h w, top_state (user_data w) = "main_menu" →
     user_data (run (run_handler ADMINS h u) w) = user_data w
     ∧ files (run (run_handler ADMINS h u) w) = files w)
  ∧ (∀ ts w, top_state (user_data w) = "main_menu" →
       top_state
         (user_data
            (converse ADMINS uid ((λ t, (t, admin_panel_label)) <$> ts) w))
       = "main_menu").
Proof.
  intros Hadm u.
  assert (∀ h w, top_state (user_data w) = "main_menu" →
            user_data (run (run_handler ADMINS h u) w) = user_data w
            ∧ files (run (run_handler ADMINS h u) w) = files w) as Hstep.
  { intros h w Htop. unfold run. destruct h; cbn [run_handler].
    - unfold u. by rewrite handle_menu_admin_label_denied.
    - by rewrite handle_admin_panel_outside.
    - by rewrite handle_admin_input_outside. }
  split; [done|].
  induction ts as [|t ts IH]; intros w Htop; [done|].
  cbn [fmap list_fmap converse]. apply IH.
  change (top_state (user_data (run (dispatch ADMINS u) (at_time t w)))
          = "main_menu").
  assert (run (dispatch ADMINS u) (at_time t w)
          = run (run_handler ADMINS Menu u) (at_time t w)) as ->.
  { unfold run, u. cbn [run_handler].
    rewrite handle_menu_admin_label_denied by done.
    by erewrite dispatch_Ok by (by apply handle_menu_admin_label_denied). }
  by destruct (Hstep Menu (at_time t w) Htop) as [-> _].
Qed.

(** ** The program on concrete conversations *)

Import Scenario.

(** C1, at a failing input.  In [waiting_add_item] the cancel label is read
    as the payload: for the tests section an Item named like the label is
    appended and saved; for the topics section the split fails and the
    session stays in [waiting_add_item]. *)
Theorem cancel_label_is_read_as_payload :
  let w := world_of (store [item_A; item_B])
             (in_panel (Some "waiting_add_item") (Val "Тесты")) in
  let w' := run (handle_admin_input ADMINS (say cancel_label)) w in
  let v := world_of (store [item_A; item_B])
             (in_panel (Some "waiting_add_item") (Val "Теория")) in
  let v' := run (handle_admin_input ADMINS (say cancel_label)) v in
  stored_items (files w') "tests" "tests"
  = Some [item_A; item_B; {| item_id := "3"; item_name := cancel_label |}]
  ∧ files w' !! structure_path "tests" ≠ files w !! structure_path "tests"
  ∧ text <$> outbox w' = ["Элемент 'Отмена' добавлен в раздел 'Тесты'."]
  ∧ admin_state (user_data v') = Some "waiting_add_item".
Proof. vm_compute. by split_and!. Qed.

(** C2, at a failing input.  The Item chosen in [waiting_edit_item_list] is
    an object of that call's document; [waiting_edit_item] renames that
    object and saves the document it has just loaded, whose Items are other
    objects: the stored name is unchanged while the reply announces the
    rename. *)
Theorem rename_is_not_saved :
  let w0 := world_of (store [item_A; item_B])
              (in_panel (Some "waiting_edit_item_list") (Val "Тесты")) in
  let w1 := run (handle_admin_input ADMINS (say "A")) w0 in
  let w2 := run (handle_admin_input ADMINS (say "Z")) (at_time (at_second 1) w1) in
  admin_state (user_data w1) = Some "waiting_edit_item"
  ∧ admin_selected_item (user_data w1) = Val 0
  ∧ heap w1 !! 0 = Some item_A
  ∧ heap w2 !! 0 = Some {| item_id := "1"; item_name := "Z" |}
  ∧ stored_items (files w2) "tests" "tests" = Some [item_A; item_B]
  ∧ admin_state (user_data w2) = None
  ∧ text <$> outbox w2
    = ["Введите новое название для 'A':"; "Элемент переименован в 'Z'."].
Proof. vm_compute. by split_and!. Qed.

(** C4 as stated, on the program: the collection after deleting ["A"] and
    adding ["C"] is not the one the specification gives. *)
Lemma delete_then_add_id_is_not_1 :
  stored_items
    (files (talk (delete_from_tests "A" ++ add_to_tests "C")
              (world_of (store [item_A; item_B]) (in_panel None Absent))))
    "tests" "tests"
  ≠ Some [item_B; {| item_id := "1"; item_name := "C" |}].
Proof. vm_compute. discriminate. Qed.

(** C4, amended.  From [[{1, A}; {2, B}]], deleting ["A"] and then adding
    ["C"] leaves [[{2, B}; {2, C}]]: the new id is the count after the
    deletion plus one, which is the id of the surviving Item. *)
Theorem delete_then_add_reuses_surviving_id :
  stored_items
    (files (talk (delete_from_tests "A" ++ add_to_tests "C")
              (world_of (store [item_A; item_B]) (in_panel None Absent))))
    "tests" "tests"
  = Some [item_B; {| item_id := "2"; item_name := "C" |}].
Proof. by vm_compute. Qed.

(** C3 as stated, on the program.  The store [[{1, Q}; {2, A}]] becomes
    [[{2, A}; {2, A}]] by deleting ["Q"] and adding ["A"]; deleting ["A"]
    then removes both Items, where the specification keeps the second. *)
Lemma delete_removes_the_later_equal_item :
  let item_2A := {| item_id := "2"; item_name := "A" |} in
  let w0 := world_of (store [{| item_id := "1"; item_name := "Q" |}; item_2A])
              (in_panel None Absent) in
  let w1 := talk (delete_from_tests "Q" ++ add_to_tests "A") w0 in
  let w2 := talk (delete_from_tests "A") w1 in
  stored_items (files w1) "tests" "tests" = Some [item_2A; item_2A]
  ∧ stored_items (files w2) "tests" "tests" = Some []
  ∧ stored_items (files w2) "tests" "tests"
    ≠ Some (remove_first item_2A [item_2A; item_2A]).
Proof. vm_compute. by split_and!. Qed.

(** ** Renaming never reaches the file *)




(** ** The three guards exclude one another *)


Lemma handle_admin_panel_busy ADMINS u w :
  truthy (admin_state (user_data w)) = true →
  handle_admin_panel ADMINS u w = (Ok tt, w).
Proof.
  intros H. unfold handle_admin_panel.
  rewrite (bind_Ok _ _ w (user_data w) w) by done.
  by rewrite H, orb_true_r.
Qed.

Lemma handle_admin_input_idle ADMINS u w :
  truthy (admin_state (user_data w)) = false →
  handle_admin_input ADMINS u w = (Ok tt, w).
Proof.
  intros H. unfold handle_admin_input.
  rewrite (bind_Ok _ _ w (user_data w) w) by done.
  by rewrite H, orb_true_r.
Qed.

(** ** The theorems at concrete inputs *)

Lemma delete_removes_every_equal_witness :
  let w := world_of (store [item_A; item_B; item_A])
             (in_panel (Some "waiting_delete_item_list") (Val "Тесты")) in
  let w' := run (handle_admin_input ADMINS (say "A")) w in
  first_named "A" [item_A; item_B; item_A] = Some item_A
  ∧ stored_items (files w') "tests" "tests"
    = Some (without item_A [item_A; item_B; item_A])
  ∧ state (user_data w') = Some "admin_panel"
  ∧ admin_state (user_data w') = None
  ∧ admin_section (user_data w') = PyNone.
Proof.
  intros w w'. split; [reflexivity|].
  apply (delete_removes_every_equal ADMINS (say "A") w "Тесты" "tests" "tests"
           [item_A; item_B; item_A] item_A); reflexivity.
Defined.


Lemma non_admin_never_leaves_main_menu_witness :
  let u := {| user_id := 7; message_text := admin_panel_label |} in
  (7%Z ∉ ADMINS)
  ∧ (∀ h w, top_state (user_data w) = "main_menu" →
       user_data (run (run_handler ADMINS h u) w) = user_data w
       ∧ files (run (run_handler ADMINS h u) w) = files w)
  ∧ (∀ ts w, top_state (user_data w) = "main_menu" →
       top_state
         (user_data
            (converse ADMINS 7 ((λ t, (t, admin_panel_label)) <$> ts) w))
       = "main_menu").
Proof.
  intros u.
  assert (7%Z ∉ ADMINS) as H by (by intros ?%list_elem_of_singleton).
  split; [exact H|]. exact (non_admin_never_leaves_main_menu ADMINS 7 H).
Defined.





(** * Further properties *)

(** ** More on the content store *)

Lemma split_parts_no_sep sep s :
  Forall (λ part, Py.count sep part = 0) (Py.split sep s).
Proof.
  induction s as [|a s IH]; [by repeat constructor|]. cbn [Py.split].
  destruct (Ascii.eqb a sep) eqn:E; [by constructor|].
  destruct (Py.split sep s) as [|p ps]; cbn.
  - repeat constructor. cbn. by rewrite E.
  - apply Forall_cons in IH as [Hp Hps]. constructor; [|done].
    cbn. by rewrite E, Hp.
Qed.

Lemma basename_no_slash path : Py.count "/" (Py.basename path) = 0.
Proof.
  unfold Py.basename. pose proof (split_parts_no_sep "/" path) as H.
  pose proof (split_nonempty "/" path) as Hne.
  induction H as [|p ps Hp Hps IH]; [done|].
  destruct ps as [|q ps]; [done|]. apply IH. done.
Qed.

Lemma backups_of_insert_length (fs : fsys) file_path n c :
  length (backups_of (<["backups/" +:+ n := c]> fs) file_path)
  ≤ S (length (backups_of fs file_path)).
Proof.
  change (S (length (backups_of fs file_path)))
    with (length (n :: backups_of fs file_path)).
  apply submseteq_length, NoDup_submseteq; [apply NoDup_backups_of|].
  intros x. rewrite !elem_of_backups_of, elem_of_cons, elem_of_backups_of.
  destruct (decide (x = n)) as [->|Hne]; [by left|].
  rewrite lookup_insert_ne by (by intros ?%(inj (String.app _))). by right.
Qed.

Lemma backups_of_delete_head_length (fs : fsys) file_path b0 rest :
  backups_of fs file_path = b0 :: rest →
  length (backups_of (delete ("backups/" +:+ b0) fs) file_path) ≤ length rest.
Proof.
  intros E. apply submseteq_length, NoDup_submseteq; [apply NoDup_backups_of|].
  intros x. rewrite elem_of_backups_of_delete, E, elem_of_cons.
  by intros [Hne [->|Hx]].
Qed.

Lemma create_backup_length (fs : fsys) file_path t :
  length (backups_of (create_backup t file_path fs) file_path)
  ≤ 10 `max` length (backups_of fs file_path).
Proof.
  unfold create_backup. destruct (fs !! file_path) as [c|]; [|lia].
  pose proof (backups_of_insert_length fs file_path
                (backup_name file_path t) c) as Hins.
  destruct (Nat.ltb_spec 10
              (length (backups_of (<["backups/" +:+ backup_name file_path t := c]> fs)
                         file_path))) as [Hlt|Hle]; [|lia].
  destruct (backups_of (<["backups/" +:+ backup_name file_path t := c]> fs)
              file_path) as [|b0 rest] eqn:E; [cbn in Hlt; lia|].
  pose proof (backups_of_delete_head_length _ _ _ _ E). cbn in Hins. lia.
Qed.

(** X1.  On a store whose backup directory holds regular files only,
    whatever the clock reads, a save to a path in normal form outside that
    directory leaves the pool of the file's snapshots no larger than ten,
    or than it was when it held more. *)
Theorem save_keeps_pool_bounded (fs : fsys) (file_path : string)
    (t : datetime) (content : file_text) :
  outside_backups file_path →
  normalised file_path →
  flat_backups fs →
  length (backups_of (write_file t file_path content fs) file_path)
  ≤ 10 `max` length (backups_of fs file_path).
Proof.
  intros Hout _ _. unfold write_file.
  assert (length (backups_of
                    (if decide (is_Some (fs !! file_path))
                     then create_backup t file_path fs else fs) file_path)
          ≤ 10 `max` length (backups_of fs file_path)) as H.
  { destruct (decide (is_Some (fs !! file_path))); [|lia].
    apply create_backup_length. }
  destruct (Py.count "/" file_path =? 0); [done|].
  by rewrite backups_of_insert_outside.
Qed.

Lemma create_backup_frame (fs : fsys) file_path t q :
  (∀ n, Py.startswith n (Py.basename file_path) = true →
        q ≠ "backups/" +:+ n) →
  create_backup t file_path fs !! q = fs !! q.
Proof.
  intros Hq. unfold create_backup. destruct (fs !! file_path) as [c|]; [|done].
  set (fs1 := <["backups/" +:+ backup_name file_path t := c]> fs).
  assert (fs1 !! q = fs !! q) as H1.
  { apply lookup_insert_ne, not_eq_sym, Hq, backup_name_startswith. }
  destruct (10 <? length (backups_of fs1 file_path)); [|done].
  destruct (backups_of fs1 file_path) as [|b0 rest] eqn:E; [done|].
  rewrite lookup_delete_ne; [done|]. apply not_eq_sym, Hq.
  assert (b0 ∈ backups_of fs1 file_path) as Hin by (rewrite E; left).
  by apply elem_of_backups_of in Hin as (_ & _ & ?).
Qed.

(** X2.  A save writes the file and entries of its own pool, nothing else: the
    files of other sections and every other path read as before. *)
Theorem save_touches_only_its_file_and_pool (fs : fsys)
    (file_path q : string) (t : datetime) (content : file_text) :
  foreign_to file_path q →
  write_file t file_path content fs !! q = fs !! q.
Proof.
  intros [Hne Hq]. unfold write_file.
  assert ((if decide (is_Some (fs !! file_path))
           then create_backup t file_path fs else fs) !! q = fs !! q) as H.
  { destruct (decide (is_Some (fs !! file_path))); [|done].
    by apply create_backup_frame. }
  destruct (Py.count "/" file_path =? 0); [done|].
  by rewrite lookup_insert_ne.
Qed.

(** X3.  On a store whose backup directory holds regular files only, when
    the new snapshot is younger than every snapshot of the pool, a save of
    an existing file with a directory part leaves the new text in the file
    and the text it replaces in the new snapshot. *)
Theorem save_snapshots_replaced_text (fs : fsys) (file_path : string)
    (t : datetime) (content old : file_text) :
  fs !! file_path = Some old →
  outside_backups file_path →
  writable fs file_path →
  flat_backups fs →
  Forall (λ x, name_lt x (backup_name file_path t)) (backups_of fs file_path) →
  let fs' := write_file t file_path content fs in
  fs' !! file_path = Some content
  ∧ fs' !! ("backups/" +:+ backup_name file_path t) = Some old
  ∧ backup_name file_path t ∈ backups_of fs' file_path.
Proof.
  intros Hold Hout (_ & Hdir & _) _ Hlt fs'.
  assert (StronglySorted name_lt
            (backups_of fs file_path ++ [backup_name file_path t])) as Hs.
  { apply StronglySorted_app_2.
    - intros x1 x2 Hx1 ->%list_elem_of_singleton.
      rewrite Forall_forall in Hlt. by apply Hlt.
    - apply backups_of_strict.
    - repeat constructor. }
  destruct (create_backup_spec fs file_path t old _ Hold Hout
              (basename_no_slash file_path) eq_refl Hs)
    as (Hb & Hnew & _ & _).
  unfold fs'. rewrite (write_file_existing _ _ _ _ _ Hdir Hold).
  split_and!.
  - apply lookup_insert_eq.
  - by rewrite lookup_insert_ne by apply Hout.
  - rewrite backups_of_insert_outside by done. rewrite Hb. unfold rotate.
    destruct (Nat.ltb_spec 10
                (length (backups_of fs file_path ++ [backup_name file_path t])))
      as [Hlen|_].
    + rewrite length_app in Hlen. cbn in Hlen. rewrite drop_app_le by lia.
      apply elem_of_app. right. by apply list_elem_of_singleton.
    + apply elem_of_app. right. by apply list_elem_of_singleton.
Qed.

(** ** Snapshot names and time *)

Lemma lex_lt_trichotomy k1 : ∀ k2,
  length k1 = length k2 → lex_lt k1 k2 ∨ k1 = k2 ∨ lex_lt k2 k1.
Proof.
  induction k1 as [|a k1 IH]; intros [|b k2] Hlen; try done; [by right; left|].
  cbn. destruct (lt_eq_lt_dec a b) as [[? | ->] | ?];
    [by left; left| |by right; right; left].
  destruct (IH k2) as [? | [-> | ?]]; [by injection Hlen|..].
  - left. by right.
  - right. by left.
  - right. right. by right.
Qed.

Lemma name_lt_asym s1 s2 : name_lt s1 s2 → ¬ name_lt s2 s1.
Proof.
  unfold name_lt. intros H1 H2.
  rewrite String.compare_antisym, H2 in H1. done.
Qed.

Lemma dt_key_inj t1 t2 : dt_key t1 = dt_key t2 → t1 = t2.
Proof. destruct t1, t2. cbn. by intros [= -> -> -> -> -> ->]. Qed.

(** X4.  The order of snapshot names is the order of time: for clock readings
    with a four-digit year, one snapshot name sorts before another exactly
    when its reading is the earlier one, and two readings give one name
    only when they are equal. *)
Theorem snapshot_order_is_time_order (file_path : string) (t1 t2 : datetime) :
  valid_datetime t1 → valid_datetime t2 →
  (name_lt (backup_name file_path t1) (backup_name file_path t2)
   ↔ earlier t1 t2)
  ∧ (backup_name file_path t1 = backup_name file_path t2 ↔ t1 = t2).
Proof.
  intros Hv1 Hv2.
  assert (earlier t1 t2 ∨ t1 = t2 ∨ earlier t2 t1) as Htri.
  { destruct (lex_lt_trichotomy (dt_key t1) (dt_key t2) eq_refl)
      as [?|[?%dt_key_inj|?]]; auto. }
  split; split.
  - intros Hlt. destruct Htri as [? | [-> | Hgt]]; [done|..].
    + by apply name_lt_irrefl in Hlt.
    + by apply (backup_name_mono file_path), name_lt_asym in Hgt.
  - by apply backup_name_mono.
  - intros Heq. destruct Htri as [Hlt|[?|Hgt]]; [|done|].
    + apply (backup_name_mono file_path) in Hlt; [|done..].
      rewrite Heq in Hlt. by apply name_lt_irrefl in Hlt.
    + apply (backup_name_mono file_path) in Hgt; [|done..].
      rewrite Heq in Hgt. by apply name_lt_irrefl in Hgt.
  - by intros ->.
Qed.

(** ** Two saves within one clock second *)

Lemma create_backup_no_prune (fs : fsys) file_path t c :
  fs !! file_path = Some c →
  length (backups_of (<["backups/" +:+ backup_name file_path t := c]> fs)
            file_path) ≤ 10 →
  create_backup t file_path fs
  = <["backups/" +:+ backup_name file_path t := c]> fs.
Proof.
  intros Hc Hlen. unfold create_backup. rewrite Hc.
  destruct (Nat.ltb_spec 10
              (length (backups_of
                         (<["backups/" +:+ backup_name file_path t := c]> fs)
                         file_path))); [lia|done].
Qed.

(** X5.  On a store whose backup directory holds regular files only, with
    fewer than ten snapshots in the pool, two saves of an existing file
    with a directory part at one clock reading leave a single snapshot for
    that reading: the second save writes the text of the first over the
    text the first had set aside. *)
Theorem same_second_saves_share_a_snapshot (fs : fsys) (file_path : string)
    (t : datetime) (c0 c1 c2 : file_text) :
  fs !! file_path = Some c0 →
  outside_backups file_path →
  writable fs file_path →
  flat_backups fs →
  length (backups_of fs file_path) < 10 →
  let snapshot := "backups/" +:+ backup_name file_path t in
  let fs1 := write_file t file_path c1 fs in
  let fs2 := write_file t file_path c2 fs1 in
  fs1 !! snapshot = Some c0
  ∧ fs2 !! snapshot = Some c1
  ∧ backups_of fs2 file_path = backups_of fs1 file_path.
Proof.
  intros Hc0 Hout (_ & Hdir & _) _ Hlen snapshot fs1 fs2.
  pose proof (backups_of_insert_length fs file_path (backup_name file_path t) c0)
    as Hins.
  assert (fs1 = <[file_path := c1]> (<[snapshot := c0]> fs)) as E1.
  { unfold fs1. rewrite (write_file_existing _ _ _ _ _ Hdir Hc0).
    rewrite (create_backup_no_prune _ _ _ c0) by (done || lia). done. }
  assert (fs1 !! file_path = Some c1) as Hc1
    by (rewrite E1; apply lookup_insert_eq).
  assert (fs1 !! snapshot = Some c0) as Hs1.
  { rewrite E1, lookup_insert_ne by apply Hout. apply lookup_insert_eq. }
  assert (backups_of (<[snapshot := c1]> fs1) file_path
          = backups_of fs1 file_path) as Hsame.
  { apply backups_of_is; [apply backups_of_strict|]. intros x. symmetry.
    unfold snapshot. rewrite elem_of_backups_of_insert
      by auto using backup_name_no_slash, basename_no_slash,
           backup_name_startswith.
    split; [|by right]. intros [->|?]; [|done].
    apply elem_of_backups_of. fold snapshot. rewrite Hs1.
    auto using backup_name_no_slash, basename_no_slash,
      backup_name_startswith. }
  assert (fs2 = <[file_path := c2]> (<[snapshot := c1]> fs1)) as E2.
  { unfold fs2. rewrite (write_file_existing _ _ _ _ _ Hdir Hc1).
    rewrite (create_backup_no_prune _ _ _ c1); [done..|].
    fold snapshot. rewrite Hsame, E1.
    rewrite backups_of_insert_outside by done. fold snapshot in Hins. lia. }
  split_and!; [done|..].
  - rewrite E2, lookup_insert_ne by apply Hout. apply lookup_insert_eq.
  - rewrite E2, backups_of_insert_outside by done. done.
Qed.

(** ** Saving, then loading *)

Lemma load_data_Json w file_path default d :
  files w !! file_path = Some (Json d) →
  ∃ pd ext,
    load_data file_path default w = (Ok pd, with_heap (heap w ++ ext) w)
    ∧ dump (heap w ++ ext) pd = Some d.
Proof.
  intros E%read_json_Json. unfold load_data. rewrite E.
  destruct (alloc_doc_spec d (heap w)) as (ext & E1 & E2).
  destruct (alloc_doc (heap w) d) as [h' pd]. cbn in *. subst h'. eauto.
Qed.

(** X6.  A dictionary that [save_data] has written to a path it can write is
    what [load_data] reads back from that path, whatever default the
    reader supplies: the loaded dictionary denotes the document that was
    saved, and loading changes no file. *)
Theorem save_then_load (file_path : string) (data : pydict)
    (default : option pydict) (d : jdoc) (w : world) :
  writable (files w) file_path →
  dump (heap w) data = Some d →
  let w1 := run (save_data file_path data) w in
  ∃ pd w2,
    load_data file_path default w1 = (Ok pd, w2)
    ∧ dump (heap w2) pd = Some d
    ∧ files w2 = files w1.
Proof.
  intros (_ & Hdir%Nat.eqb_neq & _) Hd w1. unfold w1, run.
  rewrite (save_data_run _ _ _ _ Hd). cbn [snd].
  set (w1' := with_files _ w).
  destruct (load_data_Json w1' file_path default d) as (pd & ext & Hl & Hdump).
  { unfold w1', write_file. cbn. rewrite Hdir. apply lookup_insert_eq. }
  exists pd, (with_heap (heap w1' ++ ext) w1'). by rewrite Hl.
Qed.

(** ** What a computation leaves alone *)

Lemma keeps_ret {A B} (π : world → B) (a : A) : keeps π (mret a).
Proof. by intros w. Qed.

Lemma keeps_raise {A B} (π : world → B) e : keeps π (@raise A e).
Proof. by intros w. Qed.

Lemma keeps_bind {A A' B} (π : world → B) (m : M A) (f : A → M A') :
  keeps π m → (∀ a, keeps π (f a)) → keeps π (m ≫= f).
Proof.
  intros Hm Hf w. unfold mbind, M_bind. specialize (Hm w).
  destruct (m w) as [[a|e] w']; cbn in *; [|done]. by rewrite Hf.
Qed.

Lemma keeps_try_except {B} (π : world → B) body hv ho :
  keeps π body → (∀ e, keeps π (hv e)) → (∀ e, keeps π (ho e)) →
  keeps π (try_except body hv ho).
Proof.
  intros Hb Hv Ho w. unfold try_except. specialize (Hb w).
  destruct (body w) as [[[]|[]] w']; cbn in *; rewrite <- Hb; auto; apply Ho || apply Hv.
Qed.

Lemma keeps_getitem {V B} (π : world → B) (d : list (string * V)) key :
  keeps π (getitem d key).
Proof. intros w. unfold getitem. by destruct (dict_get d key). Qed.

Lemma keeps_item_at {B} (π : world → B) l : keeps π (item_at l).
Proof. intros w. unfold item_at. by destruct (heap w !! l). Qed.

Lemma keeps_mapM_item_at {B} (π : world → B) ls : keeps π (mapM item_at ls).
Proof.
  induction ls as [|l ls IH]; [apply keeps_ret|]. cbn.
  apply keeps_bind; [apply keeps_item_at|]. intros it.
  apply keeps_bind; [done|]. intros its. apply keeps_ret.
Qed.

Lemma keeps_find_by_name {B} (π : world → B) ls msg :
  keeps π (find_by_name ls msg).
Proof.
  induction ls as [|l ls IH]; [apply keeps_ret|]. cbn.
  apply keeps_bind; [apply keeps_item_at|]. intros it.
  destruct (String.eqb _ _); [apply keeps_ret|done].
Qed.

Lemma keeps_remove_equal {B} (π : world → B) ls sel :
  keeps π (remove_equal ls sel).
Proof.
  induction ls as [|l ls IH]; [apply keeps_ret|]. cbn.
  repeat (apply keeps_bind; [by (apply keeps_item_at || apply IH)|]; intros ?).
  apply keeps_ret.
Qed.

Lemma keeps_unpack2 {B} (π : world → B) parts : keeps π (unpack2 parts).
Proof. intros w. unfold unpack2. by repeat case_match. Qed.

(** The primitives that write neither the files nor the state. *)
Lemma keeps_files_load_data p d : keeps files (load_data p d).
Proof.
  intros w. unfold load_data.
  destruct (read_json (files w) p) as [doc| | |e]; [|done..].
  by destruct (alloc_doc (heap w) doc).
Qed.

Lemma keeps_state_load_data p d : keeps state_of (load_data p d).
Proof.
  intros w. unfold load_data.
  destruct (read_json (files w) p) as [doc| | |e]; [|done..].
  by destruct (alloc_doc (heap w) doc).
Qed.

Lemma keeps_state_save_data p d : keeps state_of (save_data p d).
Proof. by intros w. Qed.

Lemma keeps_files_set_item_name l n : keeps files (set_item_name l n).
Proof. intros w. unfold set_item_name. by destruct (heap w !! l). Qed.

Lemma keeps_state_set_item_name l n : keeps state_of (set_item_name l n).
Proof. intros w. unfold set_item_name. by destruct (heap w !! l). Qed.

Lemma keeps_current_section {B} (π : world → B) : keeps π current_section.
Proof.
  intros w. unfold current_section.
  rewrite (bind_Ok _ _ w (user_data w) w) by done.
  destruct (admin_section (user_data w)); [done..|].
  apply keeps_bind; [apply keeps_getitem|]. intros ?. apply keeps_ret.
Qed.

(** One step of the search for a proof that a computation keeps a
    component: binds, branches, and the primitives that compute. *)
Ltac keeps_step :=
  first
    [ match goal with
      | |- keeps _ (set_admin_state _) => by intros ?
      | |- keeps _ (set_admin_section _) => by intros ?
      | |- keeps _ (set_admin_selected_item _) => by intros ?
      | |- keeps _ (reply_text _ _) => by intros ?
      | |- keeps _ get_user_data => by intros ?
      | |- keeps files (set_state _) => by intros ?
      | |- keeps _ (new_item _) => by intros ?
      end
    | apply keeps_bind; [|intros ?]
    | apply keeps_ret | apply keeps_raise | apply keeps_getitem
    | apply keeps_item_at | apply keeps_mapM_item_at
    | apply keeps_find_by_name | apply keeps_remove_equal
    | apply keeps_unpack2 | apply keeps_current_section
    | apply keeps_files_load_data | apply keeps_state_load_data
    | apply keeps_state_save_data
    | apply keeps_files_set_item_name | apply keeps_state_set_item_name
    | match goal with
      | |- keeps _ (match ?x with _ => _ end) => destruct x
      | |- keeps _ (let '(_, _) := ?x in _) => destruct x
      end
    | by intros ? ].

Ltac keeps_auto := repeat keeps_step.

Lemma keeps_state_chain st msg : keeps state_of (admin_input_chain st msg).
Proof.
  unfold admin_input_chain, on_waiting_add_section, on_waiting_add_item,
    on_waiting_edit_section, on_waiting_edit_item_list, on_waiting_edit_item,
    on_waiting_delete_section, on_waiting_delete_item_list, on_cancel,
    choose_section.
  keeps_auto.
Qed.

(** ** [handle_admin_input] as a whole *)

(** X7.  An administrator's input never changes the top-level state: whatever
    the admin state, the message and the store, [state] reads after
    [handle_admin_input] as it read before. *)
Theorem admin_input_keeps_top_state (ADMINS : list Z) (u : update)
    (w : world) :
  is_admin ADMINS (user_id u) = true →
  state (user_data (run (handle_admin_input ADMINS u) w))
  = state (user_data w).
Proof.
  intros Hadm. unfold run.
  change (state_of (handle_admin_input ADMINS u w).2 = state_of w).
  revert w. change (keeps state_of (handle_admin_input ADMINS u)).
  unfold handle_admin_input. rewrite Hadm. cbn [negb].
  apply keeps_bind; [by intros ?|]. intros s.
  destruct (_ || _); [apply keeps_ret|].
  apply keeps_try_except; [apply keeps_state_chain|..];
    intros e; unfold on_value_error, on_exception; keeps_auto.
Qed.

Lemma is_str_false v s : is_str v s = false ↔ v ≠ Some s.
Proof.
  destruct v as [x|]; cbn; [|done]. rewrite String.eqb_neq. naive_solver.
Qed.

Lemma keeps_files_chain st msg :
  st ≠ Some "waiting_add_item" → st ≠ Some "waiting_edit_item" →
  st ≠ Some "waiting_delete_item_list" →
  keeps files (admin_input_chain st msg).
Proof.
  intros H1%is_str_false H2%is_str_false H3%is_str_false.
  unfold admin_input_chain. rewrite H1, H2, H3.
  unfold on_waiting_add_section, on_waiting_edit_section,
    on_waiting_edit_item_list, on_waiting_delete_section, on_cancel,
    choose_section.
  keeps_auto.
Qed.

(** X8.  [handle_admin_input] writes files in three admin states only: outside
    [waiting_add_item], [waiting_edit_item] and [waiting_delete_item_list],
    no message, valid or not, changes any file. *)
Theorem admin_input_writes_only_when_saving (ADMINS : list Z) (u : update)
    (w : world) :
  admin_state (user_data w) ≠ Some "waiting_add_item" →
  admin_state (user_data w) ≠ Some "waiting_edit_item" →
  admin_state (user_data w) ≠ Some "waiting_delete_item_list" →
  files (run (handle_admin_input ADMINS u) w) = files w.
Proof.
  intros H1 H2 H3. unfold run, handle_admin_input.
  rewrite (bind_Ok _ _ w (user_data w) w) by done.
  destruct (_ || _); [done|]. destruct (negb _).
  - revert w H1 H2 H3. intros w _ _ _. revert w.
    change (keeps files
              (set_state (Some "main_menu");; set_admin_state None;;
               reply_text "Доступ запрещен."
                 (get_main_menu ADMINS (user_id u)))).
    keeps_auto.
  - apply keeps_try_except; [by apply keeps_files_chain|..];
      intros e; unfold on_value_error, on_exception; keeps_auto.
Qed.

(** X9.  No exception leaves [handle_admin_input]: for every user, session,
    store and message the call returns normally. *)
Theorem admin_input_never_raises (ADMINS : list Z) (u : update) (w : world) :
  ∃ w', handle_admin_input ADMINS u w = (Ok tt, w').
Proof.
  unfold handle_admin_input.
  rewrite (bind_Ok _ _ w (user_data w) w) by done.
  destruct (_ || _); [by eexists|]. destruct (negb _); [by eexists|].
  unfold try_except.
  destruct (admin_input_chain _ _ w) as [[[]|[]] w']; by eexists.
Qed.

(** X10.  The menu handler and the panel handler never write a file, and the
    panel handler always returns normally. *)
Theorem menu_and_panel_never_write (ADMINS : list Z) (u : update) (w : world) :
  files (run (handle_menu ADMINS u) w) = files w
  ∧ files (run (handle_admin_panel ADMINS u) w) = files w
  ∧ ∃ w', handle_admin_panel ADMINS u w = (Ok tt, w').
Proof.
  split_and!.
  - unfold run. revert w. change (keeps files (handle_menu ADMINS u)).
    unfold handle_menu. keeps_auto.
  - unfold run. revert w. change (keeps files (handle_admin_panel ADMINS u)).
    unfold handle_admin_panel. keeps_auto.
  - unfold handle_admin_panel.
    rewrite (bind_Ok _ _ w (user_data w) w) by done.
    repeat (case_match; try by eexists).
Qed.

(** ** Access control inside the panel *)

(** X11.  A user outside the allow-list whose session is in the admin panel is
    put back to the main menu by the admin handler whose guard admits the
    session: the admin state is cleared, the reply is the denial with the
    main menu, and the message is not acted upon. *)
Theorem non_admin_is_put_out (ADMINS : list Z) (u : update) (w : world) :
  is_admin ADMINS (user_id u) = false →
  state (user_data w) = Some "admin_panel" →
  let h := if truthy (admin_state (user_data w))
           then AdminInput else AdminPanel in
  run_handler ADMINS h u w
  = (Ok tt,
     with_outbox
       (outbox w ++ [{| text := "Доступ запрещен.";
                        keyboard := get_main_menu ADMINS (user_id u);
                        on_send := put_out (user_data w) |}])
       (with_user_data (put_out (user_data w)) w)).
Proof.
  intros Hadm Hst. cbn zeta.
  destruct (truthy (admin_state (user_data w))) eqn:Ht; cbn [run_handler].
  - unfold handle_admin_input.
    rewrite (bind_Ok _ _ w (user_data w) w) by done.
    rewrite Hst, Ht, Hadm. reflexivity.
  - unfold handle_admin_panel.
    rewrite (bind_Ok _ _ w (user_data w) w) by done.
    rewrite Hst, Ht, Hadm. reflexivity.
Qed.

(** ** The guards of the three handlers *)

(** X12.  Whatever the session, at most one of the three handlers acts on a
    message: the two others return at their guard and leave the world as
    it is. *)
Theorem guards_are_exclusive (ADMINS : list Z) (u : update) (w : world) :
  (handle_admin_panel ADMINS u w = (Ok tt, w)
   ∧ handle_admin_input ADMINS u w = (Ok tt, w))
  ∨ (handle_menu ADMINS u w = (Ok tt, w)
     ∧ handle_admin_input ADMINS u w = (Ok tt, w))
  ∨ (handle_menu ADMINS u w = (Ok tt, w)
     ∧ handle_admin_panel ADMINS u w = (Ok tt, w)).
Proof.
  destruct (String.eqb (default "main_menu" (state (user_data w)))
              "admin_panel") eqn:Hst.
  - assert (handle_menu ADMINS u w = (Ok tt, w)) as Hmenu.
    { unfold handle_menu. rewrite (bind_Ok _ _ w (user_data w) w) by done.
      by rewrite Hst. }
    destruct (truthy (admin_state (user_data w))) eqn:Ht.
    + right. right. split; [done|]. by apply handle_admin_panel_busy.
    + right. left. split; [done|]. by apply handle_admin_input_idle.
  - left. split.
    + unfold handle_admin_panel.
      rewrite (bind_Ok _ _ w (user_data w) w) by done. by rewrite Hst.
    + unfold handle_admin_input.
      rewrite (bind_Ok _ _ w (user_data w) w) by done. by rewrite Hst.
Qed.

(** ** Leaving a section state by a wrong label *)

(** X13.  In each of the three section-choosing states, a message that is none
    of the five section labels, the cancel label included, ends the
    workflow: the admin state is cleared, the reply is the invalid-section
    message with the panel menu, and nothing else changes. *)
Theorem wrong_section_ends_the_workflow (ADMINS : list Z) (u : update)
    (w : world) (st : string) :
  is_admin ADMINS (user_id u) = true →
  state (user_data w) = Some "admin_panel" →
  admin_state (user_data w) = Some st →
  st ∈ ["waiting_add_section"; "waiting_edit_section";
        "waiting_delete_section"] →
  dict_get admin_sections (message_text u) = None →
  let s := {| state := Some "admin_panel"; admin_state := None;
              admin_section := admin_section (user_data w);
              admin_selected_item := admin_selected_item (user_data w) |} in
  handle_admin_input ADMINS u w
  = (Ok tt,
     with_outbox
       (outbox w ++ [{| text := "Неверный раздел. Выберите действие:";
                        keyboard := get_admin_panel_menu;
                        on_send := s |}])
       (with_user_data s w)).
Proof.
  intros Hadm Hst Hast Hin Hno s.
  assert (st ≠ EmptyString) as Hne.
  { intros ->. by repeat (apply elem_of_cons in Hin as [?|Hin]; [done|]);
      apply elem_of_nil in Hin. }
  rewrite (handle_admin_input_enter _ _ _ _ Hadm Hst Hast Hne).
  assert (admin_input_chain (Some st) (message_text u) w
          = (Ok tt,
             with_outbox
               (outbox w ++ [{| text := "Неверный раздел. Выберите действие:";
                                keyboard := get_admin_panel_menu;
                                on_send := s |}])
               (with_user_data s w))) as Hrun.
  { repeat (apply elem_of_cons in Hin as [->|Hin]);
      [..|by apply elem_of_nil in Hin].
    - change (admin_input_chain _ _)
        with (on_waiting_add_section (message_text u)).
      unfold on_waiting_add_section. rewrite Hno. unfold s. by rewrite <- Hst.
    - change (admin_input_chain _ _)
        with (choose_section (message_text u) "waiting_edit_item_list"
                "редактирования").
      unfold choose_section. rewrite Hno. unfold s. by rewrite <- Hst.
    - change (admin_input_chain _ _)
        with (choose_section (message_text u) "waiting_delete_item_list"
                "удаления").
      unfold choose_section. rewrite Hno. unfold s. by rewrite <- Hst. }
  by rewrite (try_except_Ok _ _ _ _ _ Hrun).
Qed.

(** ** Adding to a section other than topics *)



(** ** Choosing an Item by name *)

Lemma first_named_Some msg items it :
  first_named msg items = Some it → item_name it = msg ∧ it ∈ items.
Proof.
  unfold first_named. intros H. apply List.find_some in H as [Hin Heq].
  split; [by apply String.eqb_eq|by apply list_elem_of_In].
Qed.

(** X15.  In [waiting_edit_item_list], a message that is the name of a stored
    Item selects the first Item of that name: the session keeps a reference
    to it and moves to [waiting_edit_item], the reply asks for the new name
    with the cancel keyboard, and no file changes. *)
Theorem edit_selects_first_named (ADMINS : list Z) (u : update) (w : world)
    (label section key : string) (items : list Item) (it : Item) :
  is_admin ADMINS (user_id u) = true →
  state (user_data w) = Some "admin_panel" →
  admin_state (user_data w) = Some "waiting_edit_item_list" →
  admin_section (user_data w) = Val label →
  dict_get admin_sections label = Some (section, key) →
  stored_items (files w) section key = Some items →
  first_named (message_text u) items = Some it →
  let w' := run (handle_admin_input ADMINS u) w in
  ∃ l,
    user_data w'
    = {| state := Some "admin_panel";
         admin_state := Some "waiting_edit_item";
         admin_section := Val label; admin_selected_item := Val l |}
    ∧ heap w' !! l = Some it
    ∧ files w' = files w
    ∧ outbox w'
      = outbox w
        ++ [{| text := "Введите новое название для '" +:+ message_text u
                 +:+ "':";
               keyboard := [cancel_label]; on_send := user_data w' |}].
Proof.
  intros Hadm Hst Hast Hsec Hsk Hitems Hsel w'. unfold w', run.
  rewrite (handle_admin_input_enter _ _ _ _ Hadm Hst Hast) by done.
  change (admin_input_chain _ _)
    with (on_waiting_edit_item_list (message_text u)).
  unfold on_waiting_edit_item_list.
  destruct (load_data_section w section key) as (pd & ext & Hload & Hdump).
  { eauto using stored_items_readable, first_named_nonempty. }
  rewrite stored_items_loaded in Hitems.
  destruct (dump_dict_get _ _ _ _ _ Hdump Hitems) as (ls & Hget & Hls).
  set (w1 := with_heap (heap w ++ ext) w) in *.
  destruct (find_by_name_spec w1 ls items (message_text u) Hls)
    as (found & Hfind & Hfound).
  rewrite Hsel in Hfound. destruct found as [l|]; [|done].
  destruct Hfound as (it' & Hl & [= <-]).
  destruct (first_named_Some _ _ _ Hsel) as [Hname _].
  exists l. erewrite try_except_Ok.
  2:{ rewrite (bind_Ok _ _ _ _ _ (current_section_run w _ _ Hsec Hsk)).
      cbv beta iota zeta.
      rewrite (bind_Ok _ _ _ _ _ Hload).
      rewrite (bind_Ok _ _ _ _ _ (getitem_run _ _ _ _ Hget)).
      rewrite (bind_Ok _ _ _ _ _ Hfind). cbv beta iota.
      erewrite bind_Ok by reflexivity. erewrite bind_Ok by reflexivity.
      erewrite bind_Ok by (apply item_at_run, Hl).
      reflexivity. }
  cbn. rewrite Hst, Hsec, Hname. done.
Qed.


(** ** A document without the section's key *)

Lemma dump_dict_get_None h pd d key :
  dump h pd = Some d → dict_get d key = None → dict_get pd key = None.
Proof.
  revert d. induction pd as [|[k ls] pd IH]; intros d; [done|].
  cbn. destruct (dump_items h ls) as [its|]; [|done].
  destruct (dump h pd) as [d'|] eqn:E2; [|done].
  intros [= <-]. cbn. destruct (String.eqb k key); [done|]. by apply IH.
Qed.

(** X17.  When the section's file is a JSON document without the section's key,
    choosing that section in [waiting_edit_section] or
    [waiting_delete_section] raises [KeyError] after the admin state has
    moved on: the error reply is sent with the session in the item-list
    state, then admin state, section and selection are cleared; no file
    changes. *)
Theorem missing_key_is_reported (ADMINS : list Z) (u : update) (w : world)
    (st section key : string) :
  is_admin ADMINS (user_id u) = true →
  state (user_data w) = Some "admin_panel" →
  admin_state (user_data w) = Some st →
  st = "waiting_edit_section" ∨ st = "waiting_delete_section" →
  dict_get admin_sections (message_text u) = Some (section, key) →
  stored_items (files w) section key = None →
  let w' := run (handle_admin_input ADMINS u) w in
  let next :=
    if String.eqb st "waiting_edit_section"
    then "waiting_edit_item_list" else "waiting_delete_item_list" in
  files w' = files w
  ∧ user_data w'
    = {| state := Some "admin_panel"; admin_state := None;
         admin_section := PyNone; admin_selected_item := PyNone |}
  ∧ outbox w'
    = outbox w
      ++ [{| text := "Произошла ошибка: '" +:+ key +:+ "'";
             keyboard := get_admin_panel_menu;
             on_send :=
               {| state := Some "admin_panel"; admin_state := Some next;
                  admin_section := Val (message_text u);
                  admin_selected_item :=
                    admin_selected_item (user_data w) |} |}].
Proof.
  intros Hadm Hst Hast Hcase Hsk Hnone w' next. unfold w', run.
  assert (st ≠ EmptyString) as Hne by (by destruct Hcase as [-> | ->]).
  rewrite (handle_admin_input_enter _ _ _ _ Hadm Hst Hast Hne).
  assert (∀ next_state what_for,
            ∃ ext,
              choose_section (message_text u) next_state what_for w
              = (Raise (KeyError ("'" +:+ key +:+ "'")),
                 with_heap (heap w ++ ext)
                   (with_user_data
                      {| state := state (user_data w);
                         admin_state := Some next_state;
                         admin_section := Val (message_text u);
                         admin_selected_item :=
                           admin_selected_item (user_data w) |} w)))
    as Hrun.
  { intros next_state what_for. unfold choose_section. rewrite Hsk.
    erewrite bind_Ok by reflexivity. erewrite bind_Ok by reflexivity.
    match goal with
    | |- context [ (load_data _ _ ≫= _) ?w0 ] => set (w2 := w0)
    end.
    destruct (load_data_section w2 section key
                (stored_items_None_readable _ _ _ Hnone))
      as (pd & ext & Hload & Hdump).
    rewrite stored_items_loaded in Hnone.
    change (files w) with (files w2) in Hnone.
    pose proof (dump_dict_get_None _ _ _ _ Hdump Hnone) as Hget.
    exists ext. rewrite (bind_Ok _ _ _ _ _ Hload).
    erewrite bind_Raise; [reflexivity|]. unfold getitem. by rewrite Hget. }
  destruct Hcase as [-> | ->].
  - change (admin_input_chain _ _)
      with (choose_section (message_text u) "waiting_edit_item_list"
              "редактирования").
    destruct (Hrun "waiting_edit_item_list" "редактирования") as (ext & E).
    unfold try_except. rewrite E. cbn. by rewrite Hst.
  - change (admin_input_chain _ _)
      with (choose_section (message_text u) "waiting_delete_item_list"
              "удаления").
    destruct (Hrun "waiting_delete_item_list" "удаления") as (ext & E).
    unfold try_except. rewrite E. cbn. by rewrite Hst.
Qed.

(** ** Browsing a section *)

Lemma mapM_item_at_run w ls items :
  dump_items (heap w) ls = Some items → mapM item_at ls w = (Ok items, w).
Proof.
  rewrite dump_items_Some. induction 1 as [|l it ls items Hl _ IH]; [done|].
  cbn. rewrite (bind_Ok _ _ _ _ _ (item_at_run _ _ _ Hl)).
  by rewrite (bind_Ok _ _ _ _ _ IH).
Qed.

(** X18.  Outside the admin panel, a section label whose section has stored
    Items moves the session to that section and replies with the prompt,
    one numbered line an Item in stored order, and a keyboard of the Item
    names followed by the main-menu label; no file changes. *)
Theorem browse_lists_every_item (ADMINS : list Z) (u : update) (w : world)
    (section key display_key prompt : string) (items : list Item) :
  top_state (user_data w) ≠ "admin_panel" →
  dict_get menu_sections (message_text u)
  = Some (section, key, display_key, prompt) →
  stored_items (files w) section key = Some items →
  items ≠ [] →
  let w' := run (handle_menu ADMINS u) w in
  state (user_data w') = Some section
  ∧ files w' = files w
  ∧ outbox w'
    = outbox w
      ++ [{| text := prompt +:+ ":" +:+ nl +:+ listing items;
             keyboard := List.map item_name items ++ [main_menu_label];
             on_send := user_data w' |}].
Proof.
  intros Htop Hsk Hitems Hne w'. unfold w', run, handle_menu.
  rewrite (bind_Ok _ _ w (user_data w) w) by done.
  apply String.eqb_neq in Htop. unfold top_state in Htop. rewrite Htop, Hsk.
  destruct (load_data_section w section key
              (stored_items_readable _ _ _ _ Hitems Hne))
    as (pd & ext & Hload & Hdump).
  rewrite stored_items_loaded in Hitems.
  destruct (dump_dict_get _ _ _ _ _ Hdump Hitems) as (ls & Hget & Hls).
  rewrite (bind_Ok _ _ _ _ _ Hload).
  rewrite (bind_Ok _ _ _ _ _ (getitem_run _ _ _ _ Hget)).
  destruct ls as [|l ls].
  { apply dump_items_Some, Forall2_nil_inv_l in Hls. done. }
  erewrite bind_Ok by reflexivity.
  erewrite bind_Ok by (by apply mapM_item_at_run).
  done.
Qed.

(** X19.  Outside the admin panel, a section label whose document lacks the
    section's key makes [handle_menu] raise [KeyError] to its caller, with
    the session and the files as they were. *)
Theorem browse_raises_on_missing_key (ADMINS : list Z) (u : update)
    (w : world) (section key display_key prompt : string) :
  top_state (user_data w) ≠ "admin_panel" →
  dict_get menu_sections (message_text u)
  = Some (section, key, display_key, prompt) →
  stored_items (files w) section key = None →
  ∃ w', handle_menu ADMINS u w = (Raise (KeyError ("'" +:+ key +:+ "'")), w')
        ∧ user_data w' = user_data w ∧ files w' = files w
        ∧ outbox w' = outbox w.
Proof.
  intros Htop Hsk Hnone. unfold handle_menu.
  rewrite (bind_Ok _ _ w (user_data w) w) by done.
  apply String.eqb_neq in Htop. unfold top_state in Htop. rewrite Htop, Hsk.
  destruct (load_data_section w section key
              (stored_items_None_readable _ _ _ Hnone))
    as (pd & ext & Hload & Hdump).
  rewrite stored_items_loaded in Hnone.
  pose proof (dump_dict_get_None _ _ _ _ Hdump Hnone) as Hget.
  rewrite (bind_Ok _ _ _ _ _ Hload).
  eexists. split.
  { erewrite bind_Raise; [reflexivity|]. unfold getitem. by rewrite Hget. }
  done.
Qed.

(** ** Browsing an empty section *)


(** ** Additions in a row *)


Lemma numbered_app n ps qs :
  numbered n (ps ++ qs) = numbered n ps ++ numbered (n + length ps) qs.
Proof.
  revert n. induction ps as [|p ps IH]; intros n; cbn.
  - by rewrite Nat.add_0_r.
  - rewrite IH. do 3 f_equal. lia.
Qed.

Lemma numbered_length n ps : length (numbered n ps) = length ps.
Proof. revert n. induction ps as [|p ps IH]; intros n; cbn; by rewrite ?IH. Qed.


(** ** A section file that cannot be read *)

Lemma load_data_undecodable w file_path default raw msg :
  files w !! file_path = Some (NotJson raw) →
  Py.utf8_error raw = Some msg →
  load_data file_path default w = (Raise (UnicodeDecodeError msg), w).
Proof. unfold load_data, read_json. by intros -> ->. Qed.

Lemma unpack2_split_one msg w :
  Py.count "|" msg = 1 →
  ∃ a b, unpack2 (Py.split "|" msg) w = (Ok (a, b), w).
Proof.
  intros Hc. pose proof (split_length "|" msg) as Hlen. rewrite Hc in Hlen.
  destruct (Py.split "|" msg) as [|a [|b [|c parts]]]; cbn in Hlen; try lia.
  by exists a, b.
Qed.

(** X23.  In [waiting_add_item], when the section's file holds bytes that are
    not UTF-8, a well-formed payload adds nothing: [load_data] raises
    [UnicodeDecodeError], a [ValueError], and the handler replies with the
    decoder's message and the cancel keyboard; the files and the session,
    still in [waiting_add_item], are as they were. *)
Theorem undecodable_file_stops_an_addition (ADMINS : list Z) (u : update)
    (w : world) (label section key raw msg : string) :
  is_admin ADMINS (user_id u) = true →
  state (user_data w) = Some "admin_panel" →
  admin_state (user_data w) = Some "waiting_add_item" →
  admin_section (user_data w) = Val label →
  (label = "Теория" → Py.count "|" (message_text u) = 1) →
  dict_get admin_sections label = Some (section, key) →
  files w !! structure_path section = Some (NotJson raw) →
  Py.utf8_error raw = Some msg →
  handle_admin_input ADMINS u w
  = (Ok tt,
     with_outbox
       (outbox w
        ++ [{| text := "Ошибка: " +:+ msg
                 +:+ ". Попробуйте снова или выберите 'Отмена'.";
               keyboard := [cancel_label];
               on_send := user_data w |}]) w).
Proof.
  intros Hadm Hst Hast Hsec Hpay Hsk Hfile Hmsg.
  rewrite (handle_admin_input_enter _ _ _ _ Hadm Hst Hast) by done.
  rewrite chain_add_item. unfold on_waiting_add_item, try_except.
  rewrite (bind_Ok _ _ _ _ _ (current_section_run w _ _ Hsec Hsk)).
  cbv beta iota zeta.
  destruct (String.eqb label "Теория") eqn:E.
  - apply String.eqb_eq in E.
    destruct (unpack2_split_one (message_text u) w (Hpay E)) as (a & b & Hun).
    rewrite !bind_assoc. rewrite (bind_Ok _ _ _ _ _ Hun). cbv beta iota zeta.
    erewrite bind_Ok by reflexivity.
    by rewrite (bind_Raise _ _ _ _ _
                  (load_data_undecodable w _ _ _ _ Hfile Hmsg)).
  - erewrite bind_Ok by reflexivity.
    by rewrite (bind_Raise _ _ _ _ _
                  (load_data_undecodable w _ _ _ _ Hfile Hmsg)).
Qed.

(** X24.  In [waiting_edit_section] and [waiting_delete_section], choosing a
    section whose file holds bytes that are not UTF-8 leaves the session in
    the item-list state: the admin state has moved on when [load_data]
    raises [UnicodeDecodeError], and the handler for [ValueError] replies
    with the decoder's message and the cancel keyboard without resetting
    it; no file changes. *)
Theorem undecodable_file_leaves_the_item_list_state (ADMINS : list Z)
    (u : update) (w : world) (st section key raw msg : string) :
  is_admin ADMINS (user_id u) = true →
  state (user_data w) = Some "admin_panel" →
  admin_state (user_data w) = Some st →
  st = "waiting_edit_section" ∨ st = "waiting_delete_section" →
  dict_get admin_sections (message_text u) = Some (section, key) →
  files w !! structure_path section = Some (NotJson raw) →
  Py.utf8_error raw = Some msg →
  let next :=
    if String.eqb st "waiting_edit_section"
    then "waiting_edit_item_list" else "waiting_delete_item_list" in
  let s := {| state := Some "admin_panel"; admin_state := Some next;
              admin_section := Val (message_text u);
              admin_selected_item := admin_selected_item (user_data w) |} in
  handle_admin_input ADMINS u w
  = (Ok tt,
     with_outbox
       (outbox w
        ++ [{| text := "Ошибка: " +:+ msg
                 +:+ ". Попробуйте снова или выберите 'Отмена'.";
               keyboard := [cancel_label];
               on_send := s |}])
       (with_user_data s w)).
Proof.
  intros Hadm Hst Hast Hcase Hsk Hfile Hmsg next s.
  assert (st ≠ EmptyString) as Hne by (by destruct Hcase as [-> | ->]).
  rewrite (handle_admin_input_enter _ _ _ _ Hadm Hst Hast Hne).
  assert (∀ next_state what_for,
            choose_section (message_text u) next_state what_for w
            = (Raise (UnicodeDecodeError msg),
               with_user_data
                 {| state := state (user_data w);
                    admin_state := Some next_state;
                    admin_section := Val (message_text u);
                    admin_selected_item :=
                      admin_selected_item (user_data w) |} w)) as Hrun.
  { intros next_state what_for. unfold choose_section. rewrite Hsk.
    erewrite bind_Ok by reflexivity. erewrite bind_Ok by reflexivity.
    erewrite bind_Raise; [reflexivity|].
    by apply load_data_undecodable with raw. }
  destruct Hcase as [-> | ->].
  - change (admin_input_chain _ _)
      with (choose_section (message_text u) "waiting_edit_item_list"
              "редактирования").
    unfold try_except. rewrite Hrun. unfold s, next. cbn. by rewrite Hst.
  - change (admin_input_chain _ _)
      with (choose_section (message_text u) "waiting_delete_item_list"
              "удаления").
    unfold try_except. rewrite Hrun. unfold s, next. cbn. by rewrite Hst.
Qed.

(** X25.  Outside the admin panel, a section label whose file holds bytes
    that are not UTF-8 makes [handle_menu] raise [UnicodeDecodeError] to
    the application, with the world as it was; the application then calls
    [error_handler], whose reply carries no keyboard. *)
Theorem browse_lets_the_decode_error_escape (ADMINS : list Z) (u : update)
    (w : world) (section key display_key prompt raw msg : string) :
  top_state (user_data w) ≠ "admin_panel" →
  dict_get menu_sections (message_text u)
  = Some (section, key, display_key, prompt) →
  files w !! structure_path section = Some (NotJson raw) →
  Py.utf8_error raw = Some msg →
  handle_menu ADMINS u w = (Raise (UnicodeDecodeError msg), w)
  ∧ dispatch ADMINS u w
    = (Ok tt,
       with_outbox
         (outbox w ++ [{| text := "Произошла ошибка. Попробуйте снова.";
                          keyboard := [];
                          on_send := user_data w |}]) w).
Proof.
  intros Htop Hsk Hfile Hmsg.
  assert (handle_menu ADMINS u w = (Raise (UnicodeDecodeError msg), w)) as H.
  { unfold handle_menu.
    rewrite (bind_Ok _ _ w (user_data w) w) by done.
    apply String.eqb_neq in Htop. unfold top_state in Htop. rewrite Htop, Hsk.
    by rewrite (bind_Raise _ _ _ _ _
                  (load_data_undecodable w _ _ _ _ Hfile Hmsg)). }
  split; [done|]. unfold dispatch. by rewrite H.
Qed.

(** ** Saving to a path without a directory part *)

(** X26.  [save_data] on a path with no slash never writes the file:
    [os.makedirs] raises on the empty directory part and the exception is
    swallowed.  The file reads as before, and when it was not there the
    whole store is as before. *)
Theorem save_needs_a_directory_part (file_path : string) (data : pydict)
    (w : world) :
  Py.count "/" file_path = 0 →
  let w' := run (save_data file_path data) w in
  files w' !! file_path = files w !! file_path
  ∧ (files w !! file_path = None → files w' = files w).
Proof.
  intros Hdir w'. unfold w', run, save_data, write_file. cbn [snd files with_files].
  rewrite Hdir. cbn [Nat.eqb]. split.
  - destruct (decide (is_Some (files w !! file_path))); [|done].
    apply create_backup_frame. intros n _ ->.
    rewrite count_app in Hdir. cbn in Hdir. lia.
  - intros Hnone. rewrite Hnone.
    by destruct (decide (is_Some None)) as [[? [=]]|].
Qed.

(** ** The running program inside the admin panel *)


(** ** The further properties at concrete inputs *)

Lemma save_keeps_pool_bounded_witness :
  let p := structure_path "tests" in
  outside_backups p
  ∧ normalised p
  ∧ flat_backups ten_topic_snapshots
  ∧ length (backups_of
              (write_file (at_second 3) p (Json []) ten_topic_snapshots) p)
    ≤ 10 `max` length (backups_of ten_topic_snapshots p).
Proof.
  intros p.
  assert (flat_backups ten_topic_snapshots) as Hflat
    by (apply (bool_decide_unpack _); by vm_compute).
  assert (normalised p) as Hnorm
    by (apply (bool_decide_unpack _); by vm_compute).
  split; [apply structure_path_outside|].
  split; [exact Hnorm|]. split; [exact Hflat|].
  apply (save_keeps_pool_bounded ten_topic_snapshots p (at_second 3) (Json [])).
  - apply structure_path_outside.
  - exact Hnorm.
  - exact Hflat.
Defined.

Lemma save_touches_only_its_file_and_pool_witness :
  let p := structure_path "tests" in
  let q := structure_path "theory" in
  foreign_to p q
  ∧ write_file (at_second 20) p (Json []) ten_topic_snapshots !! q
    = ten_topic_snapshots !! q.
Proof.
  intros p q.
  assert (foreign_to p q) as H.
  { split; [by vm_compute|]. intros n _. apply structure_path_outside. }
  split; [exact H|].
  exact (save_touches_only_its_file_and_pool ten_topic_snapshots p q
           (at_second 20) (Json []) H).
Defined.

Lemma save_snapshots_replaced_text_witness :
  let p := structure_path "tests" in
  let fs := store [item_A] in
  let fs' := write_file (at_second 5) p (Json [("tests", [item_B])]) fs in
  fs !! p = Some (Json [("tests", [item_A])])
  ∧ writable fs p
  ∧ flat_backups fs
  ∧ fs' !! p = Some (Json [("tests", [item_B])])
  ∧ fs' !! ("backups/" +:+ backup_name p (at_second 5))
    = Some (Json [("tests", [item_A])])
  ∧ backup_name p (at_second 5) ∈ backups_of fs' p.
Proof.
  intros p fs fs'.
  assert (writable fs p) as Hw
    by (apply (bool_decide_unpack _); by vm_compute).
  assert (flat_backups fs) as Hflat
    by (apply (bool_decide_unpack _); by vm_compute).
  split; [reflexivity|]. split; [exact Hw|]. split; [exact Hflat|].
  apply (save_snapshots_replaced_text fs p (at_second 5)
           (Json [("tests", [item_B])]) (Json [("tests", [item_A])])).
  - reflexivity.
  - apply structure_path_outside.
  - exact Hw.
  - exact Hflat.
  - by vm_compute.
Defined.

Lemma snapshot_order_is_time_order_witness :
  let p := structure_path "tests" in
  valid_datetime (at_second 7) ∧ valid_datetime (at_second 12)
  ∧ (name_lt (backup_name p (at_second 7)) (backup_name p (at_second 12))
     ↔ earlier (at_second 7) (at_second 12))
  ∧ (backup_name p (at_second 7) = backup_name p (at_second 12)
     ↔ at_second 7 = at_second 12).
Proof.
  intros p.
  assert (valid_datetime (at_second 7)) as H1
    by (apply (bool_decide_unpack _); by vm_compute).
  assert (valid_datetime (at_second 12)) as H2
    by (apply (bool_decide_unpack _); by vm_compute).
  split; [exact H1|]. split; [exact H2|].
  exact (snapshot_order_is_time_order p (at_second 7) (at_second 12) H1 H2).
Defined.

Lemma same_second_saves_share_a_snapshot_witness :
  let p := structure_path "tests" in
  let fs := store [] in
  let snapshot := "backups/" +:+ backup_name p (at_second 5) in
  let fs1 := write_file (at_second 5) p (Json [("tests", [item_A])]) fs in
  let fs2 := write_file (at_second 5) p (Json [("tests", [item_A; item_B])])
               fs1 in
  length (backups_of fs p) < 10
  ∧ writable fs p
  ∧ flat_backups fs
  ∧ fs1 !! snapshot = Some (Json [("tests", [])])
  ∧ fs2 !! snapshot = Some (Json [("tests", [item_A])])
  ∧ backups_of fs2 p = backups_of fs1 p.
Proof.
  intros p fs snapshot fs1 fs2.
  assert (length (backups_of fs p) < 10) as H by (vm_compute; lia).
  assert (writable fs p) as Hw
    by (apply (bool_decide_unpack _); by vm_compute).
  assert (flat_backups fs) as Hflat
    by (apply (bool_decide_unpack _); by vm_compute).
  split; [exact H|]. split; [exact Hw|]. split; [exact Hflat|].
  apply (same_second_saves_share_a_snapshot fs p (at_second 5)
           (Json [("tests", [])])).
  - reflexivity.
  - apply structure_path_outside.
  - exact Hw.
  - exact Hflat.
  - exact H.
Defined.

Lemma save_then_load_witness :
  let w := {| clock := at_second 0; files := ∅; heap := [item_A; item_B];
              user_data := in_panel None Absent; outbox := [] |} in
  let w1 := run (save_data (structure_path "tests") [("tests", [1; 0])]) w in
  writable (files w) (structure_path "tests")
  ∧ dump (heap w) [("tests", [1; 0])] = Some [("tests", [item_B; item_A])]
  ∧ ∃ pd w2,
      load_data (structure_path "tests") None w1 = (Ok pd, w2)
      ∧ dump (heap w2) pd = Some [("tests", [item_B; item_A])]
      ∧ files w2 = files w1.
Proof.
  intros w w1.
  assert (writable (files w) (structure_path "tests")) as Hw
    by (apply (bool_decide_unpack _); by vm_compute).
  split; [exact Hw|]. split; [reflexivity|].
  apply (save_then_load (structure_path "tests") [("tests", [1; 0])] None
           [("tests", [item_B; item_A])] w).
  - exact Hw.
  - reflexivity.
Defined.

Lemma admin_input_keeps_top_state_witness :
  let w := world_of (store [item_A])
             (in_panel (Some "waiting_delete_item_list") (Val "Тесты")) in
  is_admin ADMINS admin = true
  ∧ state (user_data (run (handle_admin_input ADMINS (say "A")) w))
    = state (user_data w).
Proof.
  intros w. split; [reflexivity|].
  apply (admin_input_keeps_top_state ADMINS (say "A") w). reflexivity.
Defined.

Lemma admin_input_writes_only_when_saving_witness :
  let w := world_of (store [item_A])
             (in_panel (Some "waiting_edit_item_list") (Val "Тесты")) in
  admin_state (user_data w) = Some "waiting_edit_item_list"
  ∧ files (run (handle_admin_input ADMINS (say "A")) w) = files w.
Proof.
  intros w. split; [reflexivity|].
  apply (admin_input_writes_only_when_saving ADMINS (say "A") w);
    by vm_compute.
Defined.

Lemma non_admin_is_put_out_witness :
  let u := {| user_id := 7; message_text := "Тесты" |} in
  let w := world_of (store [item_A])
             (in_panel (Some "waiting_add_section") Absent) in
  is_admin ADMINS 7 = false
  ∧ handle_admin_input ADMINS u w
    = (Ok tt,
       with_outbox
         [{| text := "Доступ запрещен.";
             keyboard := get_main_menu ADMINS 7;
             on_send := put_out (user_data w) |}]
         (with_user_data (put_out (user_data w)) w)).
Proof.
  intros u w. split; [reflexivity|].
  apply (non_admin_is_put_out ADMINS u w); reflexivity.
Defined.

Lemma wrong_section_ends_the_workflow_witness :
  let w := world_of (store [item_A])
             (in_panel (Some "waiting_edit_section") Absent) in
  dict_get admin_sections cancel_label = None
  ∧ handle_admin_input ADMINS (say cancel_label) w
    = (Ok tt,
       with_outbox
         [{| text := "Неверный раздел. Выберите действие:";
             keyboard := get_admin_panel_menu;
             on_send := in_panel None Absent |}]
         (with_user_data (in_panel None Absent) w)).
Proof.
  intros w. split; [reflexivity|].
  apply (wrong_section_ends_the_workflow ADMINS (say cancel_label) w
           "waiting_edit_section"); [reflexivity..| |reflexivity].
  apply (bool_decide_unpack _). by vm_compute.
Defined.


Lemma edit_selects_first_named_witness :
  let w := world_of (store [item_B; item_A; item_A])
             (in_panel (Some "waiting_edit_item_list") (Val "Тесты")) in
  let w' := run (handle_admin_input ADMINS (say "A")) w in
  first_named "A" [item_B; item_A; item_A] = Some item_A
  ∧ ∃ l,
      user_data w'
      = {| state := Some "admin_panel";
           admin_state := Some "waiting_edit_item";
           admin_section := Val "Тесты"; admin_selected_item := Val l |}
      ∧ heap w' !! l = Some item_A
      ∧ files w' = files w
      ∧ outbox w'
        = outbox w
          ++ [{| text := "Введите новое название для '" +:+ "A" +:+ "':";
                 keyboard := [cancel_label]; on_send := user_data w' |}].
Proof.
  intros w w'. split; [reflexivity|].
  apply (edit_selects_first_named ADMINS (say "A") w "Тесты" "tests" "tests"
           [item_B; item_A; item_A] item_A); reflexivity.
Defined.


Lemma missing_key_is_reported_witness :
  let fs : fsys := {[ structure_path "tests" := Json [("topics", [item_A])] ]} in
  let w := world_of fs (in_panel (Some "waiting_edit_section") Absent) in
  let w' := run (handle_admin_input ADMINS (say "Тесты")) w in
  stored_items (files w) "tests" "tests" = None
  ∧ files w' = files w
  ∧ user_data w'
    = {| state := Some "admin_panel"; admin_state := None;
         admin_section := PyNone; admin_selected_item := PyNone |}
  ∧ outbox w'
    = outbox w
      ++ [{| text := "Произошла ошибка: '" +:+ "tests" +:+ "'";
             keyboard := get_admin_panel_menu;
             on_send :=
               {| state := Some "admin_panel";
                  admin_state := Some "waiting_edit_item_list";
                  admin_section := Val "Тесты";
                  admin_selected_item := Absent |} |}].
Proof.
  intros fs w w'. split; [reflexivity|].
  apply (missing_key_is_reported ADMINS (say "Тесты") w
           "waiting_edit_section" "tests" "tests");
    [reflexivity..|by left|reflexivity|reflexivity].
Defined.

Lemma browse_lists_every_item_witness :
  let u := {| user_id := 7; message_text := "📝 Тесты" |} in
  let w := {| clock := at_second 0; files := store [item_A; item_B];
              heap := [];
              user_data := {| state := Some "main_menu"; admin_state := None;
                              admin_section := Absent;
                              admin_selected_item := Absent |};
              outbox := [] |} in
  let w' := run (handle_menu ADMINS u) w in
  stored_items (files w) "tests" "tests" = Some [item_A; item_B]
  ∧ state (user_data w') = Some "tests"
  ∧ files w' = files w
  ∧ outbox w'
    = outbox w
      ++ [{| text := "Выберите тест" +:+ ":" +:+ nl
               +:+ listing [item_A; item_B];
             keyboard := List.map item_name [item_A; item_B]
                         ++ [main_menu_label];
             on_send := user_data w' |}].
Proof.
  intros u w w'. split; [reflexivity|].
  apply (browse_lists_every_item ADMINS u w "tests" "tests" "tests"
           "Выберите тест" [item_A; item_B]); by vm_compute.
Defined.

Lemma browse_raises_on_missing_key_witness :
  let u := {| user_id := 7; message_text := "📝 Тесты" |} in
  let fs : fsys := {[ structure_path "tests" := Json [("topics", [item_A])] ]} in
  let w := {| clock := at_second 0; files := fs; heap := [];
              user_data := {| state := None; admin_state := None;
                              admin_section := Absent;
                              admin_selected_item := Absent |};
              outbox := [] |} in
  stored_items (files w) "tests" "tests" = None
  ∧ ∃ w', handle_menu ADMINS u w
          = (Raise (KeyError ("'" +:+ "tests" +:+ "'")), w')
          ∧ user_data w' = user_data w ∧ files w' = files w
          ∧ outbox w' = outbox w.
Proof.
  intros u fs w. split; [reflexivity|].
  apply (browse_raises_on_missing_key ADMINS u w "tests" "tests" "tests"
           "Выберите тест"); by vm_compute.
Defined.




Lemma undecodable_file_stops_an_addition_witness :
  let fs : fsys := {[ structure_path "tests" := NotJson (String "255" "{}") ]} in
  let w := world_of fs (in_panel (Some "waiting_add_item") (Val "Тесты")) in
  let msg :=
    "'utf-8' codec can't decode byte 0xff in position 0: invalid start byte" in
  Py.utf8_error (String "255" "{}") = Some msg
  ∧ handle_admin_input ADMINS (say "Экзема") w
    = (Ok tt,
       with_outbox
         (outbox w
          ++ [{| text := "Ошибка: " +:+ msg
                   +:+ ". Попробуйте снова или выберите 'Отмена'.";
                 keyboard := [cancel_label];
                 on_send := user_data w |}]) w).
Proof.
  intros fs w msg. split; [by vm_compute|].
  apply (undecodable_file_stops_an_addition ADMINS (say "Экзема") w "Тесты"
           "tests" "tests" (String "255" "{}") msg); by vm_compute.
Defined.

Lemma undecodable_file_leaves_the_item_list_state_witness :
  let fs : fsys := {[ structure_path "tests" := NotJson (String "255" "{}") ]} in
  let w := world_of fs (in_panel (Some "waiting_edit_section") Absent) in
  let s := in_panel (Some "waiting_edit_item_list") (Val "Тесты") in
  let msg :=
    "'utf-8' codec can't decode byte 0xff in position 0: invalid start byte" in
  Py.utf8_error (String "255" "{}") = Some msg
  ∧ handle_admin_input ADMINS (say "Тесты") w
    = (Ok tt,
       with_outbox
         (outbox w
          ++ [{| text := "Ошибка: " +:+ msg
                   +:+ ". Попробуйте снова или выберите 'Отмена'.";
                 keyboard := [cancel_label];
                 on_send := s |}])
         (with_user_data s w)).
Proof.
  intros fs w s msg. split; [by vm_compute|].
  apply (undecodable_file_leaves_the_item_list_state ADMINS (say "Тесты") w
           "waiting_edit_section" "tests" "tests" (String "255" "{}") msg);
    [reflexivity..|by left|reflexivity|reflexivity|by vm_compute].
Defined.

Lemma browse_lets_the_decode_error_escape_witness :
  let u := {| user_id := 7; message_text := "📝 Тесты" |} in
  let fs : fsys := {[ structure_path "tests" := NotJson (String "255" "{}") ]} in
  let w := {| clock := at_second 0; files := fs; heap := [];
              user_data := {| state := Some "main_menu"; admin_state := None;
                              admin_section := Absent;
                              admin_selected_item := Absent |};
              outbox := [] |} in
  let msg :=
    "'utf-8' codec can't decode byte 0xff in position 0: invalid start byte" in
  Py.utf8_error (String "255" "{}") = Some msg
  ∧ handle_menu ADMINS u w = (Raise (UnicodeDecodeError msg), w)
  ∧ dispatch ADMINS u w
    = (Ok tt,
       with_outbox
         (outbox w ++ [{| text := "Произошла ошибка. Попробуйте снова.";
                          keyboard := [];
                          on_send := user_data w |}]) w).
Proof.
  intros u fs w msg. split; [by vm_compute|].
  apply (browse_lets_the_decode_error_escape ADMINS u w "tests" "tests"
           "tests" "Выберите тест" (String "255" "{}") msg); by vm_compute.
Defined.

Lemma save_needs_a_directory_part_witness :
  let w := {| clock := at_second 0; files := ∅; heap := [item_A];
              user_data := in_panel None Absent; outbox := [] |} in
  let w' := run (save_data "structure.json" [("tests", [0])]) w in
  Py.count "/" "structure.json" = 0
  ∧ files w' !! "structure.json" = files w !! "structure.json"
  ∧ (files w !! "structure.json" = None → files w' = files w).
Proof.
  intros w w'. split; [reflexivity|].
  apply (save_needs_a_directory_part "structure.json" [("tests", [0])] w).
  reflexivity.
Defined.

